(** * Cookify front end: saved-recipe reconciliation, pantry synchronisation
    and error normalisation.

    Shallow embedding of [frontend/src/api.ts] ([ApiClient.request] and the
    API methods), of the state handlers of [frontend/src/App.tsx] (the later
    revision, the one with the pantry) and of [ProfileCard.handleLogout].

    Conventions.
    - A JavaScript string is a [string]; an optional or possibly [undefined]
      field is an [option].
    - React state is one record, [AppState]; a [setX(prev => ...)] call is a
      functional update of that record.
    - An [async] handler is a computation in the monad [Async]: it threads the
      state, records the API methods it invokes and settles like a promise
      (fulfilled with a value or rejected with the thrown value).
    - What the network does is an input: every API method takes the behaviour
      of its [fetch] as a value of type [Fetch T]. *)

From stdpp Require Import gmap strings list pretty.

Open Scope string_scope.

(** ** Data model ([api.ts]) *)

Module Ingredient.
Record t := mk { name : string; measure : string }.
End Ingredient.

Module Recipe.
Record t := mk {
  id : string;
  title : string;
  image : string;
  cuisine : string;
  meal_type : string;
  tags : list string;
  ingredients : list Ingredient.t;
  instructions : list string;
  match_count : Z;
  total_searched : Z
}.
End Recipe.

Module AIRecipe.
Record t := mk {
  id : string;
  title : string;
  image : string;
  cuisine : string;
  meal_type : string;
  tags : list string;
  ingredients : list Ingredient.t;
  instructions : list string;
  time_minutes : option Z;
  servings : option Z;
  difficulty : option string;
  nutrition_summary : option string;
  source : string;
  is_ai_generated : bool
}.
End AIRecipe.

(** The argument of [handleSaveRecipe] has the union type [Recipe | AIRecipe]. *)
Inductive RecipeInput :=
| Catalog (r : Recipe.t)
| Generated (r : AIRecipe.t).

(** The object literal [saveData] built by [handleSaveRecipe]. *)
Module SaveData.
Record t := mk {
  title : string;
  image : string;
  source : string;
  cuisine : string;
  meal_type : string;
  tags : list string;
  ingredients : list Ingredient.t;
  instructions : list string;
  time_minutes : option Z;
  servings : option Z;
  difficulty : option string;
  nutrition_summary : option string;
  is_ai_generated : bool
}.
End SaveData.

Module SavedRecipe.
Record t := mk {
  id : string;
  recipe_id : string;
  title : string;
  image : option string;
  source : string;
  created_at : string;
  cuisine : option string;
  meal_type : option string;
  tags : list string;
  ingredients : list Ingredient.t;
  instructions : list string;
  time_minutes : option Z;
  servings : option Z;
  difficulty : option string;
  nutrition_summary : option string;
  is_ai_generated : bool
}.
End SavedRecipe.

Module SavedRecipesResponse.
Record t := mk { items : list SavedRecipe.t }.
End SavedRecipesResponse.

Module OkResponse.
Record t := mk { ok : bool }.
End OkResponse.

Module ProfileResponse.
Record t := mk { id : string; email : string }.
End ProfileResponse.

(** [PantryItem], exported by [App.tsx]. *)
Module PantryItem.
Record t := mk {
  name : string;
  quantity : string;
  expiryDate : option string;
  addedAt : string
}.
End PantryItem.

(** Modelled from the spec: the interface [PantryItemOut] is imported from
    [api.ts] but the revision of [api.ts] at hand does not declare it.  The
    fields are those of the "Upsert pantry item" and "Get pantry" responses
    (section 6) as [mapPantryOut] reads them: [quantity] and [expiry_date]
    may be missing or null. *)
Module PantryItemOut.
Record t := mk {
  name : string;
  quantity : option string;
  expiry_date : option string;
  added_at : string
}.
End PantryItemOut.

(** The [expiry_date] member of an upsert payload: left out of the object
    literal, [null], or an ISO date-time. *)
Inductive ExpiryIn :=
| ExpiryAbsent
| ExpiryNull
| ExpiryIso (iso : string).

(** Modelled from the spec: the interface [PantryItemIn] is imported from
    [api.ts] but not declared in the revision at hand.  It is the request body
    [{name, quantity, expiry_date?}] of section 6; [quantity] is an [option]
    because [updatePantryItem] stores [merged.quantity] there, which is
    [undefined] when neither the snapshot nor the updates carry it. *)
Module PantryItemIn.
Record t := mk {
  name : string;
  quantity : option string;
  expiry_date : ExpiryIn
}.
End PantryItemIn.

Module PantryResponse.
Record t := mk { items : list PantryItemOut.t }.
End PantryResponse.

(** ** Thrown values and promises *)

(** An instance of [Error] (or of a subclass: [TypeError], [SyntaxError]). *)
Record JsError := mkError { err_name : string; message : string }.

(** Anything a [throw] or a rejected promise can carry. *)
Inductive Thrown :=
| ErrorInstance (e : JsError)
| NonError (description : string).

Definition instanceof_Error (t : Thrown) : bool :=
  match t with
  | ErrorInstance _ => true
  | NonError _ => false
  end.

(** [new Error(msg)]. *)
Definition new_Error (msg : string) : JsError :=
  {| err_name := "Error"; message := msg |}.

(** A settled promise. *)
Inductive Settled (A : Type) :=
| Fulfilled (a : A)
| Rejected (e : Thrown).
Arguments Fulfilled {A} a.
Arguments Rejected {A} e.

(** ** [ApiClient.request] *)

(** What [fetch] and the body of the response do for one request.
    - [NoResponse e]: [fetch(url, config)] rejects with [e];
    - [NotOk body]: a response with [response.ok] false; [body] is the outcome
      of [await response.json()] followed by reading [errorData.detail]
      ([None] when the parsed object has no [detail]);
    - [Ok body]: a response with [response.ok] true and the outcome of
      [await response.json()]. *)
Inductive Fetch (T : Type) :=
| NoResponse (e : Thrown)
| NotOk (body : Settled (option string))
| Ok (body : Settled T).
Arguments NoResponse {T} e.
Arguments NotOk {T} body.
Arguments Ok {T} body.

(** [detail || fallback] on a possibly missing string: the empty string is
    falsy. *)
Definition or_default (detail : option string) (fallback : string) : string :=
  match detail with
  | Some s => if bool_decide (s = "") then fallback else s
  | None => fallback
  end.

(** The [try] block of [request]. *)
Definition request_try {T} (net : Fetch T) : Settled T :=
  match net with
  | NoResponse e => Rejected e
  | NotOk (Rejected e) => Rejected e
  | NotOk (Fulfilled detail) =>
      Rejected (ErrorInstance (new_Error (or_default detail "Request failed")))
  | Ok body => body
  end.

(** [request]: the [try] block, then the [catch] clause, which rethrows an
    [Error] instance and replaces anything else by [new Error('Network error')]. *)
Definition request {T} (net : Fetch T) : Settled T :=
  match request_try net with
  | Fulfilled v => Fulfilled v
  | Rejected error =>
      if instanceof_Error error then Rejected error
      else Rejected (ErrorInstance (new_Error "Network error"))
  end.

(** ** Application state ([App.tsx]) *)

Module Tab.
Inductive t := auth | profile | recipes | ingredients | about | pantry.
End Tab.

(** The [useState] cells of [App], and the [token] entry of [localStorage]. *)
Record AppState := mkApp {
  activeTab : Tab.t;
  isLoggedIn : bool;
  isLoading : bool;
  savedRecipes : list SavedRecipe.t;
  savedRecipeIds : gset string;
  searchIngredients : string;
  pantry : list PantryItem.t;
  token : option string
}.

(** The state of the first render: the arguments of the [useState] calls.
    [stored] is what [localStorage] holds under ['token']. *)
Definition initialState (stored : option string) : AppState :=
  {| activeTab := Tab.auth; isLoggedIn := false; isLoading := true;
     savedRecipes := []; savedRecipeIds := ∅; searchIngredients := "";
     pantry := []; token := stored |}.

(** The API methods a handler can invoke, with their arguments. *)
Inductive ApiCall :=
| CallGetProfile
| CallSaveRecipe (recipeId : string) (data : SaveData.t)
| CallGetSavedRecipes
| CallDeleteSavedRecipe (recipeId : string)
| CallGetPantry
| CallUpsertPantryItem (payload : PantryItemIn.t)
| CallDeletePantryItem (name : string).

(** ** The monad of handlers *)

(** One run of a handler: the API calls it made, in order, how its promise
    settled, and the state it left. *)
Record Run (A : Type) := mkRun {
  calls : list ApiCall;
  settled : Settled A;
  state : AppState
}.
Arguments mkRun {A} calls settled state.
Arguments calls {A} r.
Arguments settled {A} r.
Arguments state {A} r.

Definition Async (A : Type) : Type := AppState → Run A.

Definition ret {A} (a : A) : Async A :=
  λ st, mkRun [] (Fulfilled a) st.

(** [throw e]. *)
Definition throw {A} (e : Thrown) : Async A :=
  λ st, mkRun [] (Rejected e) st.

(** Sequencing: a rejection skips the rest. *)
Definition bind {A B} (m : Async A) (k : A → Async B) : Async B :=
  λ st,
    let r := m st in
    match settled r with
    | Fulfilled a =>
        let r' := k a (state r) in
        mkRun (calls r ++ calls r') (settled r') (state r')
    | Rejected e => mkRun (calls r) (Rejected e) (state r)
    end.

(** [try { m } catch (e) { h e }]. *)
Definition try_catch {A} (m : Async A) (h : Thrown → Async A) : Async A :=
  λ st,
    let r := m st in
    match settled r with
    | Fulfilled a => r
    | Rejected e =>
        let r' := h e (state r) in
        mkRun (calls r ++ calls r') (settled r') (state r')
    end.

(** Reading the current state. *)
Definition getState : Async AppState :=
  λ st, mkRun [] (Fulfilled st) st.

(** A state update. *)
Definition modify (f : AppState → AppState) : Async unit :=
  λ st, mkRun [] (Fulfilled tt) (f st).

(** [await api.method(args)] where the promise of the method settles as [p]. *)
Definition await {A} (c : ApiCall) (p : Settled A) : Async A :=
  λ st, mkRun [c] p st.

(** A settled promise lifted without any call. *)
Definition lift {A} (p : Settled A) : Async A :=
  λ st, mkRun [] p st.

Notation "'let*' x ':=' m 'in' k" := (bind m (λ x, k))
  (at level 10, x name, m at level 100, k at level 200, only parsing).
Notation "m ';;' k" := (bind m (λ _, k))
  (at level 100, k at level 200, right associativity, only parsing).

(** The [setX] functions of the [useState] cells, applied to an updater. *)
Definition setActiveTab (f : Tab.t → Tab.t) : Async unit :=
  modify (λ st, mkApp (f (activeTab st)) (isLoggedIn st) (isLoading st)
    (savedRecipes st) (savedRecipeIds st) (searchIngredients st) (pantry st)
    (token st)).

Definition setIsLoggedIn (f : bool → bool) : Async unit :=
  modify (λ st, mkApp (activeTab st) (f (isLoggedIn st)) (isLoading st)
    (savedRecipes st) (savedRecipeIds st) (searchIngredients st) (pantry st)
    (token st)).

Definition setIsLoading (f : bool → bool) : Async unit :=
  modify (λ st, mkApp (activeTab st) (isLoggedIn st) (f (isLoading st))
    (savedRecipes st) (savedRecipeIds st) (searchIngredients st) (pantry st)
    (token st)).

Definition setSavedRecipes (f : list SavedRecipe.t → list SavedRecipe.t) : Async unit :=
  modify (λ st, mkApp (activeTab st) (isLoggedIn st) (isLoading st)
    (f (savedRecipes st)) (savedRecipeIds st) (searchIngredients st) (pantry st)
    (token st)).

Definition setSavedRecipeIds (f : gset string → gset string) : Async unit :=
  modify (λ st, mkApp (activeTab st) (isLoggedIn st) (isLoading st)
    (savedRecipes st) (f (savedRecipeIds st)) (searchIngredients st) (pantry st)
    (token st)).

Definition setPantry (f : list PantryItem.t → list PantryItem.t) : Async unit :=
  modify (λ st, mkApp (activeTab st) (isLoggedIn st) (isLoading st)
    (savedRecipes st) (savedRecipeIds st) (searchIngredients st) (f (pantry st))
    (token st)).

(** [localStorage.removeItem('token')]. *)
Definition removeToken : Async unit :=
  modify (λ st, mkApp (activeTab st) (isLoggedIn st) (isLoading st)
    (savedRecipes st) (savedRecipeIds st) (searchIngredients st) (pantry st)
    None).

(** ** The API methods ([api.ts]) *)

(** Each method is one [request]; [net] is what the network does with it. *)
Module api.

Definition getProfile (net : Fetch ProfileResponse.t) : Async ProfileResponse.t :=
  await CallGetProfile (request net).

Definition saveRecipe (recipeId : string) (data : SaveData.t)
    (net : Fetch OkResponse.t) : Async OkResponse.t :=
  await (CallSaveRecipe recipeId data) (request net).

Definition getSavedRecipes (net : Fetch SavedRecipesResponse.t)
    : Async SavedRecipesResponse.t :=
  await CallGetSavedRecipes (request net).

Definition deleteSavedRecipe (recipeId : string) (net : Fetch OkResponse.t)
    : Async OkResponse.t :=
  await (CallDeleteSavedRecipe recipeId) (request net).

End api.

(** ** Saved recipes ([App.tsx]) *)

(** ['is_ai_generated' in recipe]: only [AIRecipe] declares the member. *)
Definition has_is_ai_generated (recipe : RecipeInput) : bool :=
  match recipe with
  | Catalog _ => false
  | Generated _ => true
  end.

(** Members common to both arms of the union. *)
Definition recipe_id_of (recipe : RecipeInput) : string :=
  match recipe with
  | Catalog r => Recipe.id r
  | Generated r => AIRecipe.id r
  end.

Definition recipe_title (recipe : RecipeInput) : string :=
  match recipe with
  | Catalog r => Recipe.title r
  | Generated r => AIRecipe.title r
  end.

Definition recipe_image (recipe : RecipeInput) : string :=
  match recipe with
  | Catalog r => Recipe.image r
  | Generated r => AIRecipe.image r
  end.

Definition recipe_cuisine (recipe : RecipeInput) : string :=
  match recipe with
  | Catalog r => Recipe.cuisine r
  | Generated r => AIRecipe.cuisine r
  end.

Definition recipe_meal_type (recipe : RecipeInput) : string :=
  match recipe with
  | Catalog r => Recipe.meal_type r
  | Generated r => AIRecipe.meal_type r
  end.

Definition recipe_tags (recipe : RecipeInput) : list string :=
  match recipe with
  | Catalog r => Recipe.tags r
  | Generated r => AIRecipe.tags r
  end.

Definition recipe_ingredients (recipe : RecipeInput) : list Ingredient.t :=
  match recipe with
  | Catalog r => Recipe.ingredients r
  | Generated r => AIRecipe.ingredients r
  end.

Definition recipe_instructions (recipe : RecipeInput) : list string :=
  match recipe with
  | Catalog r => Recipe.instructions r
  | Generated r => AIRecipe.instructions r
  end.

(** ['k' in recipe ? recipe.k : undefined] for the members only [AIRecipe] has. *)
Definition recipe_time_minutes (recipe : RecipeInput) : option Z :=
  match recipe with
  | Catalog _ => None
  | Generated r => AIRecipe.time_minutes r
  end.

Definition recipe_servings (recipe : RecipeInput) : option Z :=
  match recipe with
  | Catalog _ => None
  | Generated r => AIRecipe.servings r
  end.

Definition recipe_difficulty (recipe : RecipeInput) : option string :=
  match recipe with
  | Catalog _ => None
  | Generated r => AIRecipe.difficulty r
  end.

Definition recipe_nutrition_summary (recipe : RecipeInput) : option string :=
  match recipe with
  | Catalog _ => None
  | Generated r => AIRecipe.nutrition_summary r
  end.

(** ['is_ai_generated' in recipe ? recipe.is_ai_generated : false]. *)
Definition recipe_is_ai_generated (recipe : RecipeInput) : bool :=
  match recipe with
  | Catalog _ => false
  | Generated r => AIRecipe.is_ai_generated r
  end.

(** The object literal [saveData] of [handleSaveRecipe]. *)
Definition saveData (recipe : RecipeInput) : SaveData.t :=
  {| SaveData.title := recipe_title recipe;
     SaveData.image := recipe_image recipe;
     SaveData.source := if has_is_ai_generated recipe then "AI" else "TheMealDB";
     SaveData.cuisine := recipe_cuisine recipe;
     SaveData.meal_type := recipe_meal_type recipe;
     SaveData.tags := recipe_tags recipe;
     SaveData.ingredients := recipe_ingredients recipe;
     SaveData.instructions := recipe_instructions recipe;
     SaveData.time_minutes := recipe_time_minutes recipe;
     SaveData.servings := recipe_servings recipe;
     SaveData.difficulty := recipe_difficulty recipe;
     SaveData.nutrition_summary := recipe_nutrition_summary recipe;
     SaveData.is_ai_generated := recipe_is_ai_generated recipe |}.

(** One reading of the clock: [Date.now()] in milliseconds and
    [new Date().toISOString()]. *)
Record Clock := mkClock { now : N; nowISOString : string }.

(** The object literal [newSavedRecipe] of [handleSaveRecipe]. *)
Definition newSavedRecipe (recipe : RecipeInput) (clock : Clock) : SavedRecipe.t :=
  {| SavedRecipe.id := "temp_" +:+ pretty (now clock);
     SavedRecipe.recipe_id := recipe_id_of recipe;
     SavedRecipe.title := recipe_title recipe;
     SavedRecipe.image := Some (recipe_image recipe);
     SavedRecipe.source := SaveData.source (saveData recipe);
     SavedRecipe.created_at := nowISOString clock;
     SavedRecipe.cuisine := Some (recipe_cuisine recipe);
     SavedRecipe.meal_type := Some (recipe_meal_type recipe);
     SavedRecipe.tags := recipe_tags recipe;
     SavedRecipe.ingredients := recipe_ingredients recipe;
     SavedRecipe.instructions := recipe_instructions recipe;
     SavedRecipe.time_minutes := recipe_time_minutes recipe;
     SavedRecipe.servings := recipe_servings recipe;
     SavedRecipe.difficulty := recipe_difficulty recipe;
     SavedRecipe.nutrition_summary := recipe_nutrition_summary recipe;
     SavedRecipe.is_ai_generated := recipe_is_ai_generated recipe |}.

(** [fetchSavedRecipes]: the error of a failed fetch is logged and dropped. *)
Definition fetchSavedRecipes (net : Fetch SavedRecipesResponse.t) : Async unit :=
  try_catch
    (let* response := api.getSavedRecipes net in
     setSavedRecipes (λ _, SavedRecipesResponse.items response) ;;
     setSavedRecipeIds (λ _,
       list_to_set (SavedRecipe.recipe_id <$> SavedRecipesResponse.items response)))
    (λ error, ret tt).

(** [handleSaveRecipe]. *)
Definition handleSaveRecipe (recipe : RecipeInput) (clock : Clock)
    (net : Fetch OkResponse.t) : Async unit :=
  try_catch
    (api.saveRecipe (recipe_id_of recipe) (saveData recipe) net ;;
     setSavedRecipes (λ prev, newSavedRecipe recipe clock :: prev) ;;
     setSavedRecipeIds (λ prev, prev ∪ {[ recipe_id_of recipe ]}))
    (λ error, throw error).

(** [handleUnsaveRecipe]. *)
Definition handleUnsaveRecipe (recipeId : string) (net : Fetch OkResponse.t)
    : Async unit :=
  try_catch
    (api.deleteSavedRecipe recipeId net ;;
     setSavedRecipes (λ prev,
       filter (λ recipe, SavedRecipe.recipe_id recipe ≠ recipeId) prev) ;;
     setSavedRecipeIds (λ prev, prev ∖ {[ recipeId ]}))
    (λ error, throw error).

(** Modelled from the spec: [isSaved] is the membership test against the
    saved-id set (section 4.2); the component that performs it, [Recipes],
    receives [savedRecipeIds] but is not part of the sources at hand. *)
Definition isSaved (st : AppState) (recipeId : string) : bool :=
  bool_decide (recipeId ∈ savedRecipeIds st).

(** ** Pantry ([App.tsx]) *)

(** Two functions of the JavaScript runtime the pantry handlers rely on:
    [String.prototype.toLowerCase], and [new Date(s).toISOString()], which
    throws (a [RangeError]) when [s] is not a date. *)
Class JsRuntime := {
  toLowerCase : string → string;
  dateToISOString : string → Settled string
}.

(** A member of an object whose members are all optional: the key is not
    there, or it is there and holds a value or [undefined]. *)
Inductive Member (A : Type) :=
| Absent
| Present (v : option A).
Arguments Absent {A}.
Arguments Present {A} v.

(** Reading [o.k]: a missing key reads as [undefined]. *)
Definition read {A} (m : Member A) : option A :=
  match m with
  | Absent => None
  | Present v => v
  end.

(** [Partial<PantryItem>], also the shape of [{ ...current, ...updates }]. *)
Module PartialPantryItem.
Record t := mk {
  name : Member string;
  quantity : Member string;
  expiryDate : Member string;
  addedAt : Member string
}.
End PartialPantryItem.

(** The own members of [current], which is a [PantryItem] or [undefined];
    spreading [undefined] contributes nothing. *)
Definition members (current : option PantryItem.t) : PartialPantryItem.t :=
  match current with
  | Some i =>
      {| PartialPantryItem.name := Present (Some (PantryItem.name i));
         PartialPantryItem.quantity := Present (Some (PantryItem.quantity i));
         PartialPantryItem.expiryDate := Present (PantryItem.expiryDate i);
         PartialPantryItem.addedAt := Present (Some (PantryItem.addedAt i)) |}
  | None =>
      {| PartialPantryItem.name := Absent;
         PartialPantryItem.quantity := Absent;
         PartialPantryItem.expiryDate := Absent;
         PartialPantryItem.addedAt := Absent |}
  end.

(** One key of [{ ...a, ...b }]: a key of [b] wins, whatever it holds. *)
Definition spread_member {A} (a b : Member A) : Member A :=
  match b with
  | Absent => a
  | Present v => Present v
  end.

(** [{ ...a, ...b }]. *)
Definition spread (a b : PartialPantryItem.t) : PartialPantryItem.t :=
  {| PartialPantryItem.name :=
       spread_member (PartialPantryItem.name a) (PartialPantryItem.name b);
     PartialPantryItem.quantity :=
       spread_member (PartialPantryItem.quantity a) (PartialPantryItem.quantity b);
     PartialPantryItem.expiryDate :=
       spread_member (PartialPantryItem.expiryDate a) (PartialPantryItem.expiryDate b);
     PartialPantryItem.addedAt :=
       spread_member (PartialPantryItem.addedAt a) (PartialPantryItem.addedAt b) |}.

(** Truthiness of a possibly missing string. *)
Definition truthy (s : option string) : bool :=
  match s with
  | Some v => negb (bool_decide (v = ""))
  | None => false
  end.

(** [mapPantryOut]. *)
Definition mapPantryOut (p : PantryItemOut.t) : PantryItem.t :=
  {| PantryItem.name := PantryItemOut.name p;
     PantryItem.quantity := or_default (PantryItemOut.quantity p) "";
     PantryItem.expiryDate :=
       (if truthy (PantryItemOut.expiry_date p)
        then String.substring 0 10 <$> PantryItemOut.expiry_date p
        else None);
     PantryItem.addedAt := PantryItemOut.added_at p |}.

(** Modelled from the spec: the pantry methods of the API client, which
    [App.tsx] calls but the revision of [api.ts] at hand does not define.
    Like the methods that are there, each is a single [request]
    (section 4.4: every logical operation is one request with the uniform
    error normalisation). *)
Module pantry_api.

Definition getPantry (net : Fetch PantryResponse.t) : Async PantryResponse.t :=
  await CallGetPantry (request net).

Definition upsertPantryItem (payload : PantryItemIn.t)
    (net : Fetch PantryItemOut.t) : Async PantryItemOut.t :=
  await (CallUpsertPantryItem payload) (request net).

Definition deletePantryItem (name : string) (net : Fetch OkResponse.t)
    : Async OkResponse.t :=
  await (CallDeletePantryItem name) (request net).

End pantry_api.

(** [fetchPantry]. *)
Definition fetchPantry (net : Fetch PantryResponse.t) : Async unit :=
  try_catch
    (let* res := pantry_api.getPantry net in
     setPantry (λ _, mapPantryOut <$> PantryResponse.items res))
    (λ e, ret tt).

(** [removePantryItem]. *)
Definition removePantryItem (name : string) (net : Fetch OkResponse.t)
    : Async unit :=
  try_catch
    (pantry_api.deletePantryItem name net ;;
     setPantry (λ prev, filter (λ i, PantryItem.name i ≠ name) prev))
    (λ e, throw e).

Section WithRuntime.
Context `{rt : JsRuntime}.

(** [addToPantry]. *)
Definition addToPantry (name : string) (net : Fetch PantryItemOut.t)
    : Async unit :=
  try_catch
    (let payload :=
       {| PantryItemIn.name := name;
          PantryItemIn.quantity := Some "";
          PantryItemIn.expiry_date := ExpiryAbsent |} in
     let* saved := pantry_api.upsertPantryItem payload net in
     setPantry (λ prev,
       let others :=
         filter (λ i, toLowerCase (PantryItem.name i) ≠ toLowerCase name) prev in
       mapPantryOut saved :: others))
    (λ e, throw e).

(** [merged.expiryDate ? new Date(merged.expiryDate).toISOString() : null]. *)
Definition expiry_of (expiryDate : option string) : Settled ExpiryIn :=
  match expiryDate with
  | Some d =>
      if truthy expiryDate then
        match dateToISOString d with
        | Fulfilled iso => Fulfilled (ExpiryIso iso)
        | Rejected e => Rejected e
        end
      else Fulfilled ExpiryNull
  | None => Fulfilled ExpiryNull
  end.

(** The object literal [payload] of [updatePantryItem]. *)
Definition update_payload (name : string) (merged : PartialPantryItem.t)
    : Settled PantryItemIn.t :=
  match expiry_of (read (PartialPantryItem.expiryDate merged)) with
  | Fulfilled expiry =>
      Fulfilled {| PantryItemIn.name := name;
                   PantryItemIn.quantity := read (PartialPantryItem.quantity merged);
                   PantryItemIn.expiry_date := expiry |}
  | Rejected e => Rejected e
  end.

(** [updatePantryItem]. *)
Definition updatePantryItem (name : string) (updates : PartialPantryItem.t)
    (net : Fetch PantryItemOut.t) : Async unit :=
  try_catch
    (let* st := getState in
     let current :=
       List.find (λ i, bool_decide (PantryItem.name i = name)) (pantry st) in
     let merged := spread (members current) updates in
     let* payload := lift (update_payload name merged) in
     let* saved := pantry_api.upsertPantryItem payload net in
     setPantry (λ prev,
       (λ i, if bool_decide (PantryItem.name i = name)
             then mapPantryOut saved else i) <$> prev))
    (λ e, throw e).

End WithRuntime.

(** ** Session ([App.tsx], [ProfileCard.tsx]) *)

(** [handleLogin]; the argument is not used. *)
Definition handleLogin (_token : string) : Async unit :=
  setIsLoggedIn (λ _, true) ;;
  setActiveTab (λ _, Tab.profile).

(** [handleLogout] of [App]. *)
Definition handleLogout : Async unit :=
  setIsLoggedIn (λ _, false) ;;
  setActiveTab (λ _, Tab.auth).

(** [handleLogout] of [ProfileCard], whose [onLogout] is [App]'s
    [handleLogout]. *)
Module ProfileCard.
Definition handleLogout : Async unit :=
  removeToken ;;
  handleLogout.
End ProfileCard.

(** [checkAuth], the body of the effect that runs once, on the first render. *)
Definition checkAuth (net : Fetch ProfileResponse.t) : Async unit :=
  let* st := getState in
  (if truthy (token st) then
     try_catch
       (api.getProfile net ;;
        setIsLoggedIn (λ _, true) ;;
        setActiveTab (λ _, Tab.profile))
       (λ _, removeToken)
   else ret tt) ;;
  setIsLoading (λ _, false).

(** [handleTabChange]. *)
Definition handleTabChange (tab : Tab.t) : Async unit :=
  let* st := getState in
  let allowed :=
    match tab with
    | Tab.auth | Tab.recipes | Tab.about => true
    | _ => false
    end in
  if negb (isLoggedIn st) && negb allowed then ret tt
  else
    match tab with
    | Tab.auth => if isLoggedIn st then ret tt else setActiveTab (λ _, tab)
    | _ => setActiveTab (λ _, tab)
    end.

(** The body of the effect whose dependency list is [[isLoggedIn]]: both
    collections are fetched in a logged-in session, and all three cells are
    emptied in a logged-out one.  The two fetches are started without
    [await]; they write disjoint cells, so they are run one after the
    other here. *)
Definition sessionEffect (netSaved : Fetch SavedRecipesResponse.t)
    (netPantry : Fetch PantryResponse.t) : Async unit :=
  let* st := getState in
  if isLoggedIn st then
    fetchSavedRecipes netSaved ;;
    fetchPantry netPantry
  else
    setSavedRecipes (λ _, []) ;;
    setSavedRecipeIds (λ _, ∅) ;;
    setPantry (λ _, []).

(** A handler followed by the re-render it causes: React runs the effect
    again exactly when [isLoggedIn] differs from its value at the previous
    render. *)
Definition rendered {A} (netSaved : Fetch SavedRecipesResponse.t)
    (netPantry : Fetch PantryResponse.t) (handler : Async A) : Async A :=
  λ st,
    let r := handler st in
    if bool_decide (isLoggedIn (state r) = isLoggedIn st) then r
    else
      let e := sessionEffect netSaved netPantry (state r) in
      mkRun (calls r ++ calls e) (settled r) (state e).

(** A handler that cannot start a fetch from the effect: the effect can
    only run its clearing branch, which needs no network. *)
Definition idle {T} : Fetch T := NoResponse (NonError "unused").

(** [logout()]: the button of the profile card, and the re-render. *)
Definition logout : Async unit :=
  rendered idle idle ProfileCard.handleLogout.

(** [hydrate()] of the saved-recipe state. *)
Definition hydrate (net : Fetch SavedRecipesResponse.t) : Async unit :=
  fetchSavedRecipes net.

(** ** Events *)

(** What can happen to the mounted application: the start-up check, and the
    user actions that reach a handler of [App].  Each event carries the
    behaviour of the network for the requests it may cause.  The first run
    of the session effect, on the first render, finds [isLoggedIn] false and
    empties three cells that are empty already; it is left out. *)
Inductive Event :=
| Startup (netProfile : Fetch ProfileResponse.t)
    (netSaved : Fetch SavedRecipesResponse.t) (netPantry : Fetch PantryResponse.t)
| Login (tok : string)
    (netSaved : Fetch SavedRecipesResponse.t) (netPantry : Fetch PantryResponse.t)
| Logout
| TabChange (tab : Tab.t)
| Save (recipe : RecipeInput) (clock : Clock) (net : Fetch OkResponse.t)
| Unsave (recipeId : string) (net : Fetch OkResponse.t)
| AddToPantry (name : string) (net : Fetch PantryItemOut.t)
| UpdatePantryItem (name : string) (updates : PartialPantryItem.t)
    (net : Fetch PantryItemOut.t)
| RemovePantryItem (name : string) (net : Fetch OkResponse.t).

Section Events.
Context `{rt : JsRuntime}.

Definition dispatch (ev : Event) : Async unit :=
  match ev with
  | Startup netProfile netSaved netPantry =>
      rendered netSaved netPantry (checkAuth netProfile)
  | Login tok netSaved netPantry =>
      rendered netSaved netPantry (handleLogin tok)
  | Logout => logout
  | TabChange tab => handleTabChange tab
  | Save recipe clock net => handleSaveRecipe recipe clock net
  | Unsave recipeId net => handleUnsaveRecipe recipeId net
  | AddToPantry name net => addToPantry name net
  | UpdatePantryItem name updates net => updatePantryItem name updates net
  | RemovePantryItem name net => removePantryItem name net
  end.

(** The state after an event; a rejected handler leaves the state it
    reached. *)
Definition step (st : AppState) (ev : Event) : AppState :=
  state (dispatch ev st).

(** The state after a sequence of events, each one completing before the
    next begins. *)
Definition run (evs : list Event) (st : AppState) : AppState :=
  fold_left step evs st.

End Events.

(** ** A runtime for worked examples *)

(** [toLowerCase] on the letters [A] to [Z]; other characters are kept. *)
Definition lower_ascii (c : Ascii.ascii) : Ascii.ascii :=
  let n := Ascii.nat_of_ascii c in
  if (65 <=? n)%nat && (n <=? 90)%nat then Ascii.ascii_of_nat (n + 32) else c.

Fixpoint lower_string (s : string) : string :=
  match s with
  | EmptyString => EmptyString
  | String c rest => String (lower_ascii c) (lower_string rest)
  end.

(** A runtime whose dates are already ISO dates: the conversion appends the
    time of day; the empty string and ["not a date"] are rejected. *)
Definition exampleRuntime : JsRuntime :=
  {| toLowerCase := lower_string;
     dateToISOString := λ s,
       if bool_decide (s = "not a date")
       then Rejected (ErrorInstance (mkError "RangeError" "Invalid time value"))
       else Fulfilled (s +:+ "T00:00:00.000Z") |}.

(** ** Data for worked examples *)

Definition soup : Recipe.t :=
  {| Recipe.id := "r1"; Recipe.title := "Soup"; Recipe.image := "soup.png";
     Recipe.cuisine := "French"; Recipe.meal_type := "Dinner";
     Recipe.tags := ["warm"];
     Recipe.ingredients := [Ingredient.mk "Leek" "2"];
     Recipe.instructions := ["Boil"];
     Recipe.match_count := 1; Recipe.total_searched := 1 |}.

(** An [AIRecipe] whose [is_ai_generated] member is there and holds [false]. *)
Definition stew : AIRecipe.t :=
  {| AIRecipe.id := "ai_7"; AIRecipe.title := "Stew"; AIRecipe.image := "";
     AIRecipe.cuisine := "Irish"; AIRecipe.meal_type := "Dinner";
     AIRecipe.tags := []; AIRecipe.ingredients := [Ingredient.mk "Lamb" "500 g"];
     AIRecipe.instructions := ["Simmer"];
     AIRecipe.time_minutes := Some 90%Z; AIRecipe.servings := None;
     AIRecipe.difficulty := Some "easy"; AIRecipe.nutrition_summary := None;
     AIRecipe.source := "AI"; AIRecipe.is_ai_generated := false |}.

Definition noon : Clock :=
  {| now := 1700000000000%N; nowISOString := "2023-11-14T22:13:20.000Z" |}.

(** A confirmed request whose body is [{ok: true}]. *)
Definition confirmed : Fetch OkResponse.t := Ok (Fulfilled (OkResponse.mk true)).

(** A response with status 404 and body [{detail: "Saved recipe not found"}]. *)
Definition notFound : Fetch OkResponse.t :=
  NotOk (Fulfilled (Some "Saved recipe not found")).

(** What [fetch] rejects with when the server cannot be reached. *)
Definition failedToFetch : Thrown :=
  ErrorInstance (mkError "TypeError" "Failed to fetch").

(** A logged-in session with nothing saved and an empty pantry. *)
Definition freshSession : AppState :=
  {| activeTab := Tab.profile; isLoggedIn := true; isLoading := false;
     savedRecipes := []; savedRecipeIds := ∅; searchIngredients := "";
     pantry := []; token := Some "jwt" |}.

Definition tomato : PantryItem.t :=
  {| PantryItem.name := "tomato"; PantryItem.quantity := "2";
     PantryItem.expiryDate := Some "2024-01-31";
     PantryItem.addedAt := "2024-01-01T10:00:00" |}.

(** What the server answers to an upsert of ["Tomato"] with quantity ["5"]. *)
Definition tomatoOut : PantryItemOut.t :=
  {| PantryItemOut.name := "Tomato"; PantryItemOut.quantity := Some "5";
     PantryItemOut.expiry_date := Some "2024-01-31T00:00:00";
     PantryItemOut.added_at := "2024-01-02T09:00:00" |}.

Definition withPantry (items : list PantryItem.t) (st : AppState) : AppState :=
  mkApp (activeTab st) (isLoggedIn st) (isLoading st) (savedRecipes st)
    (savedRecipeIds st) (searchIngredients st) items (token st).

(** ** Predicates of the statements *)

(** The saved-id set holds exactly the [recipe_id]s of the saved list. *)
Definition saved_ids_consistent (st : AppState) : Prop :=
  savedRecipeIds st = list_to_set (SavedRecipe.recipe_id <$> savedRecipes st).

(** [keeps recipeId ev]: the event [ev] is none of the three that can take
    [recipeId] out of the saved-id set, which are a logout, a confirmed
    unsave of [recipeId], and a start-up or login whose fetch of the saved
    recipes succeeds with a list that lacks [recipeId]. *)
Definition keeps (recipeId : string) (ev : Event) : bool :=
  match ev with
  | Logout => false
  | Startup _ netSaved _ | Login _ netSaved _ =>
      match request netSaved with
      | Fulfilled response =>
          bool_decide (recipeId ∈
            SavedRecipe.recipe_id <$> SavedRecipesResponse.items response)
      | Rejected _ => true
      end
  | Unsave unsaved net =>
      match request net with
      | Fulfilled _ => bool_decide (unsaved ≠ recipeId)
      | Rejected _ => true
      end
  | _ => true
  end.

(** The first entry of the local cache with exactly that name: the
    "last known local snapshot" of the item. *)
Fixpoint snapshot (name : string) (items : list PantryItem.t)
    : option PantryItem.t :=
  match items with
  | [] => None
  | i :: rest =>
      if bool_decide (PantryItem.name i = name) then Some i
      else snapshot name rest
  end.

(** A field of the snapshot overlaid with the updates, in the words of the
    claim: the supplied value when the updates supply the field, the value
    of the snapshot otherwise, and nothing when there is no snapshot. *)
Definition overlaid_quantity (snap : option PantryItem.t)
    (updates : PartialPantryItem.t) : option string :=
  match PartialPantryItem.quantity updates with
  | Present supplied => supplied
  | Absent => PantryItem.quantity <$> snap
  end.

Definition overlaid_expiryDate (snap : option PantryItem.t)
    (updates : PartialPantryItem.t) : option string :=
  match PartialPantryItem.expiryDate updates with
  | Present supplied => supplied
  | Absent => snap ≫= PantryItem.expiryDate
  end.

(** Updates that supply the quantity only, and the expiry date only. *)
Definition onlyQuantity (q : string) : PartialPantryItem.t :=
  {| PartialPantryItem.name := Absent;
     PartialPantryItem.quantity := Present (Some q);
     PartialPantryItem.expiryDate := Absent;
     PartialPantryItem.addedAt := Absent |}.

Definition onlyExpiryDate (d : string) : PartialPantryItem.t :=
  {| PartialPantryItem.name := Absent;
     PartialPantryItem.quantity := Absent;
     PartialPantryItem.expiryDate := Present (Some d);
     PartialPantryItem.addedAt := Absent |}.

Section Counting.
Context `{rt : JsRuntime}.

(** The entries whose name is [name] up to case. *)
Definition named_like (name : string) (items : list PantryItem.t)
    : list PantryItem.t :=
  filter (λ i, toLowerCase (PantryItem.name i) = toLowerCase name) items.

End Counting.

(** [activeTab === 'profile' && <ProfileCard ... />]: the profile card, with
    its logout button, is part of the page. *)
Definition profile_card_shown (st : AppState) : bool :=
  match activeTab st with
  | Tab.profile => true
  | _ => false
  end.

(** ** The request configuration ([api.ts]) *)

(** [RequestInit], as far as the client uses it: the method, the body (a
    JSON text) and a headers record, each of which may be left out. *)
Module RequestInit.
Record t := mk {
  method : option string;
  body : option string;
  headers : option (gmap string string)
}.
End RequestInit.

(** The record spread into [config.headers]: the content type, then the
    bearer token when [localStorage] holds a truthy one, then the headers of
    the options; a later key wins. *)
Definition mergedHeaders (stored : option string) (options : RequestInit.t)
    : gmap string string :=
  let contentType : gmap string string :=
    {[ "Content-Type" := "application/json" ]} in
  let withToken :=
    match stored with
    | Some tok =>
        if truthy stored
        then <[ "Authorization" := "Bearer " +:+ tok ]> contentType
        else contentType
    | None => contentType
    end in
  default ∅ (RequestInit.headers options) ∪ withToken.

(** [config]: [{ headers: { ... }, ...options }].  The options are spread
    after the [headers] key, so a [headers] member of the options replaces
    the merged record. *)
Definition requestConfig (stored : option string) (options : RequestInit.t)
    : RequestInit.t :=
  {| RequestInit.method := RequestInit.method options;
     RequestInit.body := RequestInit.body options;
     RequestInit.headers :=
       Some match RequestInit.headers options with
            | Some own => own
            | None => mergedHeaders stored options
            end |}.

(** The methods [api.ts] defines; [json] is the text [JSON.stringify]
    made of the argument. *)
Inductive ClientMethod :=
| Register (json : string)
| LogIn (json : string)
| GetProfile
| HealthCheck
| SearchRecipes (json : string)
| SaveRecipe (recipeId : string) (json : string)
| GetSavedRecipes
| DeleteSavedRecipe (recipeId : string)
| GenerateAIRecipes (json : string).

(** The endpoint each method passes to [request]. *)
Definition endpoint (m : ClientMethod) : string :=
  match m with
  | Register _ => "/auth/register"
  | LogIn _ => "/auth/login"
  | GetProfile => "/auth/me"
  | HealthCheck => "/health"
  | SearchRecipes _ => "/recipes/search"
  | SaveRecipe recipeId _ => "/recipes/" +:+ recipeId +:+ "/save"
  | GetSavedRecipes => "/users/me/saved"
  | DeleteSavedRecipe recipeId => "/users/me/saved/" +:+ recipeId
  | GenerateAIRecipes _ => "/recipes/ai"
  end.

(** The options each method passes to [request]. *)
Definition options (m : ClientMethod) : RequestInit.t :=
  match m with
  | Register json | LogIn json | SearchRecipes json | SaveRecipe _ json
  | GenerateAIRecipes json =>
      RequestInit.mk (Some "POST") (Some json) None
  | DeleteSavedRecipe _ => RequestInit.mk (Some "DELETE") None None
  | GetProfile | HealthCheck | GetSavedRecipes => RequestInit.mk None None None
  end.

(** ** The profile card ([ProfileCard.tsx]) *)

(** The [useState] cells of [ProfileCard]. *)
Module Card.
Record t := mk {
  profile : option ProfileResponse.t;
  isLoading : bool;
  error : string;
  expandedRecipe : option string
}.
End Card.

(** The first render of the card. *)
Definition initialCard : Card.t :=
  {| Card.profile := None; Card.isLoading := true; Card.error := "";
     Card.expandedRecipe := None |}.

(** [hay.includes(needle)]. *)
Fixpoint includes (needle hay : string) : bool :=
  String.prefix needle hay ||
  match hay with
  | EmptyString => false
  | String _ rest => includes needle rest
  end.

(** [err instanceof Error ? err.message : 'Failed to load profile']. *)
Definition shownError (err : Thrown) : string :=
  match err with
  | ErrorInstance e => message e
  | NonError _ => "Failed to load profile"
  end.

(** [err instanceof Error && err.message.includes('Invalid authentication')]. *)
Definition invalidAuthentication (err : Thrown) : bool :=
  match err with
  | ErrorInstance e => includes "Invalid authentication" (message e)
  | NonError _ => false
  end.

(** [fetchProfile], the body of the effect of [ProfileCard]; [onLogout] is
    [App]'s [handleLogout].  The computation runs on the state of [App] and
    returns the cells of the card. *)
Definition fetchProfile (net : Fetch ProfileResponse.t) (card : Card.t)
    : Async Card.t :=
  let* settledCard :=
    try_catch
      (let* profileData := api.getProfile net in
       ret (Card.mk (Some profileData) (Card.isLoading card) (Card.error card)
              (Card.expandedRecipe card)))
      (λ err,
         (if invalidAuthentication err then handleLogout else ret tt) ;;
         ret (Card.mk (Card.profile card) (Card.isLoading card) (shownError err)
                (Card.expandedRecipe card))) in
  ret (Card.mk (Card.profile settledCard) false (Card.error settledCard)
         (Card.expandedRecipe settledCard)).

(** ** Further predicates of the statements *)

(** The number of saved entries that bear a [recipe_id]. *)
Definition saved_count (recipeId : string) (saved : list SavedRecipe.t) : nat :=
  length (filter (λ r, SavedRecipe.recipe_id r = recipeId) saved).

(** The tabs a logged-out session may show, and those a logged-in one may. *)
Definition tab_allowed (st : AppState) : bool :=
  match activeTab st with
  | Tab.auth => negb (isLoggedIn st)
  | Tab.recipes | Tab.about => true
  | Tab.profile | Tab.ingredients | Tab.pantry => isLoggedIn st
  end.

Section PantryNames.
Context `{rt : JsRuntime}.

(** The lower-cased names of a list of pantry items. *)
Definition lowered (items : list PantryItem.t) : list string :=
  (λ p, toLowerCase (PantryItem.name p)) <$> items.

(** [new Set(pantry.map(p => p.name.toLowerCase()))], the [pantryNames]
    handed to the ingredients view. *)
Definition pantryNames (st : AppState) : gset string :=
  list_to_set (lowered (pantry st)).

(** At most one item per name up to case. *)
Definition unique_names (items : list PantryItem.t) : Prop :=
  NoDup (lowered items).

End PantryNames.

(** ** The handlers, run *)

(** Unfolds the operations of [Async] and the API methods, so that a
    handler applied to a state reduces to a case analysis on what
    [request] returned. *)
Ltac unfold_async :=
  unfold try_catch, bind, await, lift, getState,
    api.getProfile, api.saveRecipe, api.getSavedRecipes, api.deleteSavedRecipe,
    pantry_api.getPantry, pantry_api.upsertPantryItem, pantry_api.deletePantryItem;
  simpl.

(** [request] yields a value only for a response that is ok and whose body
    parses, and then that body. *)
Lemma request_fulfilled {T} (net : Fetch T) (v : T) :
  request net = Fulfilled v ↔ net = Ok (Fulfilled v).
Proof.
  split; [| intros ->; reflexivity].
  unfold request, request_try.
  destruct net as [e | [d | e] | [w | e]]; simpl;
    try destruct (instanceof_Error e); congruence.
Qed.

Lemma request_rejects_with_Error {T} (net : Fetch T) (e : Thrown) :
  request net = Rejected e → instanceof_Error e = true.
Proof.
  unfold request.
  destruct (request_try net) as [v | t]; [discriminate |].
  destruct t; simpl; intros [= <-]; reflexivity.
Qed.

Lemma fetchSavedRecipes_run net st :
  fetchSavedRecipes net st =
  match request net with
  | Fulfilled response =>
      mkRun [CallGetSavedRecipes] (Fulfilled tt)
        (mkApp (activeTab st) (isLoggedIn st) (isLoading st)
           (SavedRecipesResponse.items response)
           (list_to_set (SavedRecipe.recipe_id <$> SavedRecipesResponse.items response))
           (searchIngredients st) (pantry st) (token st))
  | Rejected _ => mkRun [CallGetSavedRecipes] (Fulfilled tt) st
  end.
Proof.
  unfold fetchSavedRecipes. unfold_async. destruct (request net); reflexivity.
Qed.

Lemma handleSaveRecipe_run recipe clock net st :
  handleSaveRecipe recipe clock net st =
  match request net with
  | Fulfilled _ =>
      mkRun [CallSaveRecipe (recipe_id_of recipe) (saveData recipe)] (Fulfilled tt)
        (mkApp (activeTab st) (isLoggedIn st) (isLoading st)
           (newSavedRecipe recipe clock :: savedRecipes st)
           (savedRecipeIds st ∪ {[ recipe_id_of recipe ]})
           (searchIngredients st) (pantry st) (token st))
  | Rejected e =>
      mkRun [CallSaveRecipe (recipe_id_of recipe) (saveData recipe)] (Rejected e) st
  end.
Proof.
  unfold handleSaveRecipe. unfold_async. destruct (request net); reflexivity.
Qed.

Lemma handleUnsaveRecipe_run recipeId net st :
  handleUnsaveRecipe recipeId net st =
  match request net with
  | Fulfilled _ =>
      mkRun [CallDeleteSavedRecipe recipeId] (Fulfilled tt)
        (mkApp (activeTab st) (isLoggedIn st) (isLoading st)
           (filter (λ recipe, SavedRecipe.recipe_id recipe ≠ recipeId) (savedRecipes st))
           (savedRecipeIds st ∖ {[ recipeId ]})
           (searchIngredients st) (pantry st) (token st))
  | Rejected e => mkRun [CallDeleteSavedRecipe recipeId] (Rejected e) st
  end.
Proof.
  unfold handleUnsaveRecipe. unfold_async. destruct (request net); reflexivity.
Qed.

(** ** Error normalisation *)

(** A non-success response whose body parses is surfaced as an [Error]
    carrying the [detail], or ["Request failed"] when there is none. *)
Lemma request_not_ok_detail {T} (detail : option string) :
  request (NotOk (Fulfilled detail) : Fetch T) =
  Rejected (ErrorInstance (new_Error (or_default detail "Request failed"))).
Proof. reflexivity. Qed.

(** Without a response, the [catch] clause decides on the thrown value;
    only a value that is not an [Error] becomes ["Network error"]. *)
Lemma request_no_response {T} (e : Thrown) :
  request (NoResponse e : Fetch T) =
  if instanceof_Error e then Rejected e
  else Rejected (ErrorInstance (new_Error "Network error")).
Proof. reflexivity. Qed.

(** C9, at the failing input.  When the server cannot be reached, [fetch]
    rejects with a [TypeError]; [request] rethrows it unchanged, so the
    caller sees the message ["Failed to fetch"] and not the ["Network error"]
    message the [catch] clause was written to produce. *)
Theorem request_network_failure_rethrows_TypeError :
  request (NoResponse failedToFetch : Fetch OkResponse.t) = Rejected failedToFetch
  ∧ request (NoResponse failedToFetch : Fetch OkResponse.t)
    ≠ Rejected (ErrorInstance (new_Error "Network error")).
Proof. split; [reflexivity | discriminate]. Qed.

(** ** Saving: the request *)

(** C3, as the claim reads, fails: an [AIRecipe] whose [is_ai_generated] is
    there and holds [false] is sent with source ["AI"], not ["TheMealDB"]. *)
Lemma saveData_source_of_false_flag :
  recipe_is_ai_generated (Generated stew) = false
  ∧ SaveData.source (saveData (Generated stew)) = "AI"
  ∧ SaveData.source (saveData (Generated stew)) ≠ "TheMealDB".
Proof. split; [reflexivity | split; [reflexivity | discriminate]]. Qed.

(** C3, amended.  The source of the request is decided by the presence of
    the [is_ai_generated] member, not by what it holds: a record that
    carries it (an [AIRecipe]) is sent with source ["AI"] and with the flag
    it holds; a record without it is sent with source ["TheMealDB"] and the
    flag [false]. *)
Theorem saveData_source_by_presence (recipe : RecipeInput) :
  (SaveData.source (saveData recipe) = "AI" ↔ has_is_ai_generated recipe = true)
  ∧ (SaveData.source (saveData recipe) = "TheMealDB"
     ↔ has_is_ai_generated recipe = false)
  ∧ match recipe with
    | Generated r =>
        SaveData.is_ai_generated (saveData recipe) = AIRecipe.is_ai_generated r
    | Catalog _ => SaveData.is_ai_generated (saveData recipe) = false
    end.
Proof.
  destruct recipe as [r | r]; simpl; repeat split; intros; congruence.
Qed.

(** ** Saving and unsaving: failure *)

(** C4.  When the remote save call fails with [e], [handleSaveRecipe]
    rejects with [e] after that one call, and the state, so the saved list
    and the saved-id set, is the one before the call: the local update is
    never applied. *)
Theorem save_failure_leaves_state recipe clock net st (e : Thrown) :
  request net = Rejected e →
  handleSaveRecipe recipe clock net st =
  mkRun [CallSaveRecipe (recipe_id_of recipe) (saveData recipe)] (Rejected e) st.
Proof.
  intros Hfail. rewrite handleSaveRecipe_run, Hfail. reflexivity.
Qed.

Lemma save_failure_leaves_state_witness :
  handleSaveRecipe (Catalog soup) noon notFound freshSession =
  mkRun [CallSaveRecipe "r1" (saveData (Catalog soup))]
    (Rejected (ErrorInstance (new_Error "Saved recipe not found"))) freshSession.
Proof.
  apply save_failure_leaves_state. reflexivity.
Defined.

(** C2.  A failed remote delete rejects with the error and leaves the whole
    state as it was.  A successful one keeps exactly the entries whose
    [recipe_id] differs from [recipeId], in their order, so every entry with
    that [recipe_id] goes, however many there are, and takes [recipeId]
    out of the saved-id set, leaving the other ids. *)
Theorem unsave_failure_unchanged_success_removes_all recipeId net st :
  let r := handleUnsaveRecipe recipeId net st in
  match request net with
  | Rejected e => settled r = Rejected e ∧ state r = st
  | Fulfilled _ =>
      settled r = Fulfilled tt
      ∧ savedRecipes (state r) =
        filter (λ recipe, SavedRecipe.recipe_id recipe ≠ recipeId) (savedRecipes st)
      ∧ (∀ x, x ∈ savedRecipes (state r)
              ↔ x ∈ savedRecipes st ∧ SavedRecipe.recipe_id x ≠ recipeId)
      ∧ (∀ i, i ∈ savedRecipeIds (state r) ↔ i ∈ savedRecipeIds st ∧ i ≠ recipeId)
      ∧ isSaved (state r) recipeId = false
  end.
Proof.
  intros r. subst r. rewrite handleUnsaveRecipe_run.
  destruct (request net) as [v | e]; simpl; [| split; reflexivity].
  split; [reflexivity |]. split; [reflexivity |].
  split; [intros x; rewrite list_elem_of_filter; tauto |].
  split; [intros i; rewrite elem_of_difference, elem_of_singleton; tauto |].
  unfold isSaved; simpl. apply bool_decide_eq_false.
  rewrite elem_of_difference, elem_of_singleton. intros [_ Hne]. exact (Hne eq_refl).
Qed.

(** ** Hydration *)

(** C7.  A successful [hydrate] sets the saved list to the fetched items and
    the saved-id set to their [recipe_id]s, whatever the state was; a failed
    one changes nothing.  Either way, a second [hydrate] against the same
    server response leaves the state of the first. *)
Theorem hydrate_replaces_and_is_idempotent net st :
  let once := state (hydrate net st) in
  let twice := state (hydrate net once) in
  twice = once
  ∧ match request net with
    | Fulfilled response =>
        savedRecipes once = SavedRecipesResponse.items response
        ∧ savedRecipeIds once =
          list_to_set (SavedRecipe.recipe_id <$> SavedRecipesResponse.items response)
        ∧ ∀ st', savedRecipes (state (hydrate net st')) = savedRecipes once
                 ∧ savedRecipeIds (state (hydrate net st')) = savedRecipeIds once
    | Rejected _ => once = st
    end.
Proof.
  assert (Hstate : ∀ s, state (fetchSavedRecipes net s) =
    match request net with
    | Fulfilled response =>
        mkApp (activeTab s) (isLoggedIn s) (isLoading s)
          (SavedRecipesResponse.items response)
          (list_to_set (SavedRecipe.recipe_id <$> SavedRecipesResponse.items response))
          (searchIngredients s) (pantry s) (token s)
    | Rejected _ => s
    end).
  { intros s. rewrite fetchSavedRecipes_run. destruct (request net); reflexivity. }
  unfold hydrate. cbv zeta.
  destruct (request net) as [response | e] eqn:Hnet.
  - rewrite !Hstate. simpl. split; [reflexivity |].
    split; [reflexivity |]. split; [reflexivity |].
    intros st'. rewrite Hstate. split; reflexivity.
  - rewrite !Hstate. split; reflexivity.
Qed.

(** ** Logout *)

Lemma logout_run st :
  logout st =
  mkRun [] (Fulfilled tt)
    (if isLoggedIn st
     then mkApp Tab.auth false (isLoading st) [] ∅ (searchIngredients st) [] None
     else mkApp Tab.auth false (isLoading st) (savedRecipes st)
            (savedRecipeIds st) (searchIngredients st) (pantry st) None).
Proof.
  unfold logout, rendered. destruct st as [tab [|] loading saved ids search p tok];
    reflexivity.
Qed.

(** The re-render after a logout never fetches: the behaviour given for the
    network is irrelevant. *)
Lemma logout_ignores_network netSaved netPantry st :
  rendered netSaved netPantry ProfileCard.handleLogout st = logout st.
Proof.
  unfold logout, rendered. destruct st as [tab [|] loading saved ids search p tok];
    reflexivity.
Qed.

(** C8.  [logout()] is offered by the profile card, which is rendered in a
    logged-in session only.  From every such state, whatever the saved list,
    the saved-id set and the pantry hold, the logout leaves all three empty;
    it makes no API call; and a second logout makes none either and leaves
    the state of the first. *)
Theorem logout_clears_collections st :
  isLoggedIn st = true →
  let r := logout st in
  savedRecipes (state r) = []
  ∧ savedRecipeIds (state r) = ∅
  ∧ pantry (state r) = []
  ∧ calls r = []
  ∧ logout (state r) = mkRun [] (Fulfilled tt) (state r).
Proof.
  intros Hin. cbv zeta. rewrite !logout_run, Hin. simpl.
  repeat (split; [reflexivity |]). reflexivity.
Qed.

Lemma logout_clears_collections_witness :
  let st := state (handleSaveRecipe (Catalog soup) noon confirmed
                     (withPantry [tomato] freshSession)) in
  let r := logout st in
  savedRecipes (state r) = []
  ∧ savedRecipeIds (state r) = ∅
  ∧ pantry (state r) = []
  ∧ calls r = []
  ∧ logout (state r) = mkRun [] (Fulfilled tt) (state r).
Proof.
  apply logout_clears_collections. reflexivity.
Defined.

(** A logout is idempotent from any state, logged in or not. *)
Lemma logout_idempotent st :
  state (logout (state (logout st))) = state (logout st).
Proof.
  rewrite !logout_run. destruct (isLoggedIn st); reflexivity.
Qed.

(** ** What an event does to the saved recipes *)

Section Traces.
Context `{rt : JsRuntime}.

(** The saved list and the saved-id set after one event. *)
Lemma step_saved st ev :
  (savedRecipes (step st ev), savedRecipeIds (step st ev)) =
  let unchanged := (savedRecipes st, savedRecipeIds st) in
  let fetched netSaved :=
    match request netSaved with
    | Fulfilled response =>
        (SavedRecipesResponse.items response,
         list_to_set (SavedRecipe.recipe_id <$> SavedRecipesResponse.items response))
    | Rejected _ => unchanged
    end in
  match ev with
  | Startup netProfile netSaved _ =>
      match truthy (token st), request netProfile with
      | true, Fulfilled _ => if isLoggedIn st then unchanged else fetched netSaved
      | _, _ => unchanged
      end
  | Login _ netSaved _ => if isLoggedIn st then unchanged else fetched netSaved
  | Logout => if isLoggedIn st then ([], ∅) else unchanged
  | Save recipe clock net =>
      match request net with
      | Fulfilled _ =>
          (newSavedRecipe recipe clock :: savedRecipes st,
           savedRecipeIds st ∪ {[ recipe_id_of recipe ]})
      | Rejected _ => unchanged
      end
  | Unsave recipeId net =>
      match request net with
      | Fulfilled _ =>
          (filter (λ recipe, SavedRecipe.recipe_id recipe ≠ recipeId) (savedRecipes st),
           savedRecipeIds st ∖ {[ recipeId ]})
      | Rejected _ => unchanged
      end
  | _ => unchanged
  end.
Proof.
  destruct st as [tab logged loading saved ids search p tok].
  destruct ev as [netProfile netSaved netPantry | tk netSaved netPantry | | tab'
                 | recipe clock net | recipeId net | name net | name updates net
                 | name net]; unfold step, dispatch.
  - unfold rendered, checkAuth, sessionEffect, fetchSavedRecipes, fetchPantry.
    unfold_async.
    destruct (truthy tok), logged; simpl;
      destruct (request netProfile); simpl; try reflexivity;
      destruct (request netSaved); simpl; destruct (request netPantry); reflexivity.
  - unfold rendered, handleLogin, sessionEffect, fetchSavedRecipes, fetchPantry.
    unfold_async.
    destruct logged; simpl; try reflexivity;
      destruct (request netSaved); simpl; destruct (request netPantry); reflexivity.
  - rewrite logout_run. simpl. destruct logged; reflexivity.
  - unfold handleTabChange. unfold_async.
    destruct logged, tab'; reflexivity.
  - rewrite handleSaveRecipe_run. simpl. destruct (request net); reflexivity.
  - rewrite handleUnsaveRecipe_run. simpl. destruct (request net); reflexivity.
  - unfold addToPantry. unfold_async.
    destruct (request net); reflexivity.
  - unfold updatePantryItem. unfold_async.
    destruct (update_payload _ _); simpl; [| reflexivity].
    destruct (request net); reflexivity.
  - unfold removePantryItem. unfold_async.
    destruct (request net); reflexivity.
Qed.

(** Every event preserves the agreement of the set with the list. *)
Lemma step_consistent st ev :
  saved_ids_consistent st → saved_ids_consistent (step st ev).
Proof.
  unfold saved_ids_consistent. intros Hst.
  pose proof (step_saved st ev) as Hstep. cbv zeta in Hstep.
  destruct ev; simpl in Hstep; repeat case_match;
    injection Hstep as -> ->; simpl; try assumption; try reflexivity.
  - rewrite Hst. apply union_comm_L.
  - rewrite Hst. apply set_eq. intros i.
    rewrite elem_of_difference, elem_of_singleton, !elem_of_list_to_set,
      !list_elem_of_fmap.
    setoid_rewrite list_elem_of_filter. split.
    + intros [(x & -> & Hx) Hne]. exists x. tauto.
    + intros (x & -> & Hne & Hx). split; [exists x; tauto | assumption].
Qed.

Lemma run_consistent evs st :
  saved_ids_consistent st → saved_ids_consistent (run evs st).
Proof.
  revert st. induction evs as [| ev evs IH]; intros st Hst; [exact Hst |].
  simpl. apply IH, step_consistent, Hst.
Qed.

(** An event that [keeps] an id leaves it in the saved-id set. *)
Lemma step_keeps recipeId st ev :
  keeps recipeId ev = true →
  recipeId ∈ savedRecipeIds st → recipeId ∈ savedRecipeIds (step st ev).
Proof.
  intros Hkeeps Hin.
  pose proof (step_saved st ev) as Hstep. cbv zeta in Hstep.
  destruct ev; simpl in Hstep, Hkeeps; repeat case_match;
    injection Hstep as _ ->; try assumption; try discriminate.
  - apply bool_decide_eq_true in Hkeeps. apply elem_of_list_to_set, Hkeeps.
  - apply bool_decide_eq_true in Hkeeps. apply elem_of_list_to_set, Hkeeps.
  - apply elem_of_union_l, Hin.
  - apply bool_decide_eq_true in Hkeeps.
    rewrite elem_of_difference, elem_of_singleton. split; [assumption | congruence].
Qed.

Lemma run_keeps recipeId evs st :
  Forall (λ ev, keeps recipeId ev = true) evs →
  recipeId ∈ savedRecipeIds st → recipeId ∈ savedRecipeIds (run evs st).
Proof.
  intros Hevs. revert st.
  induction Hevs as [| ev evs Hev _ IH]; intros st Hin; [exact Hin |].
  simpl. apply IH, step_keeps; assumption.
Qed.

Lemma isSaved_true st recipeId :
  isSaved st recipeId = true ↔ recipeId ∈ savedRecipeIds st.
Proof. unfold isSaved. apply bool_decide_eq_true. Qed.

(** C10.  In every state the application reaches from its first render,
    through any sequence of events (start-up check, login with its fetches,
    logout with its clearing, save, unsave, pantry actions, tab changes;
    confirmed by the server or not), the saved-id set is exactly the set of
    the [recipe_id]s of the saved list, so [isSaved] answers [true] for an
    id exactly when some entry of the list bears it. *)
Theorem saved_ids_agree_with_saved_list stored evs :
  let st := run evs (initialState stored) in
  saved_ids_consistent st
  ∧ ∀ recipeId,
      isSaved st recipeId = true
      ↔ ∃ r, r ∈ savedRecipes st ∧ SavedRecipe.recipe_id r = recipeId.
Proof.
  cbv zeta.
  assert (Hinv : saved_ids_consistent (run evs (initialState stored))).
  { apply run_consistent. reflexivity. }
  split; [exact Hinv |].
  intros recipeId. rewrite isSaved_true, Hinv, elem_of_list_to_set, list_elem_of_fmap.
  split.
  - intros (r & -> & Hr). exists r. split; [assumption | reflexivity].
  - intros (r & Hr & <-). exists r. split; [reflexivity | assumption].
Qed.

(** C1, amended.  When the remote save call is confirmed, the synthesized
    entry, whose [recipe_id] is that of the recipe, is put at the front of
    the saved list and the id is added to the saved-id set, so [isSaved]
    is true at once; and it stays true through every sequence of events
    none of which is a logout, a confirmed unsave of that id, or a login or
    start-up whose fetch returns a list without that id. *)
Theorem save_success_isSaved_until_cleared recipe clock net st ok evs :
  request net = Fulfilled ok →
  Forall (λ ev, keeps (recipe_id_of recipe) ev = true) evs →
  let st1 := state (handleSaveRecipe recipe clock net st) in
  savedRecipes st1 = newSavedRecipe recipe clock :: savedRecipes st
  ∧ SavedRecipe.recipe_id (newSavedRecipe recipe clock) = recipe_id_of recipe
  ∧ savedRecipeIds st1 = savedRecipeIds st ∪ {[ recipe_id_of recipe ]}
  ∧ isSaved st1 (recipe_id_of recipe) = true
  ∧ isSaved (run evs st1) (recipe_id_of recipe) = true.
Proof.
  intros Hok Hevs. cbv zeta. rewrite handleSaveRecipe_run, Hok. simpl.
  assert (Hin : recipe_id_of recipe ∈ savedRecipeIds st ∪ {[ recipe_id_of recipe ]}).
  { apply elem_of_union_r, elem_of_singleton. reflexivity. }
  repeat (split; [reflexivity |]).
  split; [apply isSaved_true, Hin |].
  apply isSaved_true, run_keeps; [exact Hevs | exact Hin].
Qed.

End Traces.

Lemma save_success_isSaved_until_cleared_witness :
  let evs :=
    [ Save (Generated stew) noon confirmed;
      Unsave "ai_7" confirmed;
      Unsave "r1" notFound;
      TabChange Tab.recipes;
      Login "jwt" (NoResponse failedToFetch) (NoResponse failedToFetch);
      AddToPantry "Tomato" (Ok (Fulfilled tomatoOut)) ] in
  let st1 := state (handleSaveRecipe (Catalog soup) noon confirmed freshSession) in
  savedRecipes st1 = newSavedRecipe (Catalog soup) noon :: savedRecipes freshSession
  ∧ SavedRecipe.recipe_id (newSavedRecipe (Catalog soup) noon) = "r1"
  ∧ savedRecipeIds st1 = savedRecipeIds freshSession ∪ {[ "r1" ]}
  ∧ isSaved st1 "r1" = true
  ∧ isSaved (run (rt := exampleRuntime) evs st1) "r1" = true.
Proof.
  intros evs.
  apply (save_success_isSaved_until_cleared (rt := exampleRuntime)
           (Catalog soup) noon confirmed freshSession (OkResponse.mk true) evs).
  - reflexivity.
  - repeat constructor.
Defined.

(** C1, as the claim reads, fails: a logout follows a confirmed save, with
    neither an unsave nor a hydrate in between, and the recipe is no longer
    saved. *)
Lemma saved_then_logout_not_saved :
  let st1 := state (handleSaveRecipe (Catalog soup) noon confirmed freshSession) in
  isSaved st1 "r1" = true
  ∧ isSaved (run (rt := exampleRuntime) [Logout] st1) "r1" = false.
Proof. split; vm_compute; reflexivity. Qed.

(** ** Pantry *)

Lemma find_snapshot name (items : list PantryItem.t) :
  List.find (λ i, bool_decide (PantryItem.name i = name)) items = snapshot name items.
Proof.
  induction items as [| i rest IH]; simpl; [reflexivity |].
  destruct (bool_decide (PantryItem.name i = name)); [reflexivity | exact IH].
Qed.

Lemma snapshot_None name (items : list PantryItem.t) :
  snapshot name items = None ↔ ∀ i, i ∈ items → PantryItem.name i ≠ name.
Proof.
  induction items as [| i rest IH]; simpl.
  - split; [intros _ i Hi; inversion Hi | reflexivity].
  - destruct (bool_decide (PantryItem.name i = name)) eqn:Hname.
    + apply bool_decide_eq_true in Hname. split; [discriminate |].
      intros Hall. exfalso. apply (Hall i); [left | exact Hname].
    + apply bool_decide_eq_false in Hname. rewrite IH. split.
      * intros Hall j Hj. apply elem_of_cons in Hj as [-> | Hj]; auto.
      * intros Hall j Hj. apply Hall. right. exact Hj.
Qed.

Lemma snapshot_Some name (items : list PantryItem.t) i :
  snapshot name items = Some i → i ∈ items ∧ PantryItem.name i = name.
Proof.
  induction items as [| j rest IH]; simpl; [discriminate |].
  destruct (bool_decide (PantryItem.name j = name)) eqn:Hname.
  - apply bool_decide_eq_true in Hname. intros [= <-]. split; [left | exact Hname].
  - intros Hrest. destruct (IH Hrest) as [Hin Hi]. split; [right; exact Hin | exact Hi].
Qed.

Lemma read_spread_quantity snap updates :
  read (PartialPantryItem.quantity (spread (members snap) updates)) =
  overlaid_quantity snap updates.
Proof.
  unfold overlaid_quantity.
  destruct updates as [n [| q] d a], snap as [i |]; reflexivity.
Qed.

Lemma read_spread_expiryDate snap updates :
  read (PartialPantryItem.expiryDate (spread (members snap) updates)) =
  overlaid_expiryDate snap updates.
Proof.
  unfold overlaid_expiryDate.
  destruct updates as [n q [| d] a], snap as [i |]; reflexivity.
Qed.

Section PantryFacts.
Context `{rt : JsRuntime}.

Lemma addToPantry_run name net st :
  addToPantry name net st =
  let payload :=
    {| PantryItemIn.name := name; PantryItemIn.quantity := Some "";
       PantryItemIn.expiry_date := ExpiryAbsent |} in
  match request net with
  | Fulfilled saved =>
      mkRun [CallUpsertPantryItem payload] (Fulfilled tt)
        (withPantry
           (mapPantryOut saved ::
            filter (λ i, toLowerCase (PantryItem.name i) ≠ toLowerCase name) (pantry st))
           st)
  | Rejected e => mkRun [CallUpsertPantryItem payload] (Rejected e) st
  end.
Proof.
  unfold addToPantry. unfold_async. destruct (request net); reflexivity.
Qed.

Lemma updatePantryItem_run name updates net st :
  updatePantryItem name updates net st =
  match update_payload name (spread (members (snapshot name (pantry st))) updates) with
  | Fulfilled payload =>
      match request net with
      | Fulfilled saved =>
          mkRun [CallUpsertPantryItem payload] (Fulfilled tt)
            (withPantry
               ((λ i, if bool_decide (PantryItem.name i = name)
                      then mapPantryOut saved else i) <$> pantry st)
               st)
      | Rejected e => mkRun [CallUpsertPantryItem payload] (Rejected e) st
      end
  | Rejected e => mkRun [] (Rejected e) st
  end.
Proof.
  unfold updatePantryItem. unfold_async. rewrite find_snapshot.
  destruct (update_payload _ _); simpl; [| reflexivity].
  destruct (request net); reflexivity.
Qed.

Lemma update_payload_overlaid name snap updates :
  update_payload name (spread (members snap) updates) =
  match expiry_of (overlaid_expiryDate snap updates) with
  | Fulfilled expiry =>
      Fulfilled {| PantryItemIn.name := name;
                   PantryItemIn.quantity := overlaid_quantity snap updates;
                   PantryItemIn.expiry_date := expiry |}
  | Rejected e => Rejected e
  end.
Proof.
  unfold update_payload. rewrite read_spread_expiryDate, read_spread_quantity.
  reflexivity.
Qed.

(** C6.  The payload [updatePantryItem] sends is the snapshot of the item,
    the first entry of the local pantry with exactly that name, overlaid
    with the updates.  The name is the one given.  The quantity is the
    supplied one where the updates supply it and that of the snapshot
    otherwise.  The expiry date is taken the same way, from the updates or
    else from the snapshot, and that date is what goes out: converted by
    [toISOString] when it is a non-empty text, null when it is empty or
    missing; when the conversion of that date throws, nothing is sent.
    Without a snapshot, which is when no entry bears the name, the two
    fields are read from the updates alone, a field they do not supply
    going out as undefined or null. *)
Theorem update_payload_overlays_snapshot name updates net st :
  let snap := snapshot name (pantry st) in
  let sent expiry :=
    [CallUpsertPantryItem
       {| PantryItemIn.name := name;
          PantryItemIn.quantity := overlaid_quantity snap updates;
          PantryItemIn.expiry_date := expiry |}] in
  calls (updatePantryItem name updates net st) =
    match overlaid_expiryDate snap updates with
    | Some date =>
        if bool_decide (date = "") then sent ExpiryNull
        else
          match dateToISOString date with
          | Fulfilled iso => sent (ExpiryIso iso)
          | Rejected _ => []
          end
    | None => sent ExpiryNull
    end
  ∧ match snap with
    | Some i => i ∈ pantry st ∧ PantryItem.name i = name
    | None =>
        (∀ i, i ∈ pantry st → PantryItem.name i ≠ name)
        ∧ overlaid_quantity snap updates = read (PartialPantryItem.quantity updates)
        ∧ overlaid_expiryDate snap updates = read (PartialPantryItem.expiryDate updates)
    end.
Proof.
  cbv zeta. split.
  - rewrite updatePantryItem_run, update_payload_overlaid.
    unfold expiry_of, truthy.
    destruct (overlaid_expiryDate _ _) as [date |]; simpl.
    + destruct (bool_decide (date = "")); simpl.
      * destruct (request net); reflexivity.
      * destruct (dateToISOString date); simpl; [| reflexivity].
        destruct (request net); reflexivity.
    + destruct (request net); reflexivity.
  - destruct (snapshot name (pantry st)) as [i |] eqn:Hsnap.
    + apply snapshot_Some, Hsnap.
    + split; [apply snapshot_None, Hsnap |].
      unfold overlaid_quantity, overlaid_expiryDate.
      destruct updates as [n [| q] [| d] a]; split; reflexivity.
Qed.

Lemma named_like_others name (items : list PantryItem.t) :
  named_like name
    (filter (λ i, toLowerCase (PantryItem.name i) ≠ toLowerCase name) items) = [].
Proof.
  unfold named_like. induction items as [| i rest IH]; [reflexivity |].
  rewrite (filter_cons (λ i, toLowerCase (PantryItem.name i) ≠ toLowerCase name)).
  destruct (decide (toLowerCase (PantryItem.name i) ≠ toLowerCase name)) as [Hne | Heq];
    [| exact IH].
  rewrite filter_cons_False; [exact IH | exact (λ H, Hne H)].
Qed.

(** C5, amended.  With the upsert confirmed by the server as [saved], an
    item that bears the given name up to case:
    - [addToPantry] removes every entry whose name is the given one up to
      case and puts the confirmed item at the front, so exactly one entry,
      the confirmed one, bears the name up to case;
    - [updatePantryItem] replaces, in place, each entry whose name is exactly
      the given one by the confirmed item, removes nothing and puts nothing
      at the front: the pantry keeps its length (and its state, when the
      conversion of the expiry date throws before anything is sent). *)
Theorem upsert_local_effect name updates net st saved :
  request net = Fulfilled saved →
  toLowerCase (PantryItemOut.name saved) = toLowerCase name →
  let added := pantry (state (addToPantry name net st)) in
  let updated := pantry (state (updatePantryItem name updates net st)) in
  added =
    mapPantryOut saved ::
    filter (λ i, toLowerCase (PantryItem.name i) ≠ toLowerCase name) (pantry st)
  ∧ named_like name added = [mapPantryOut saved]
  ∧ match update_payload name (spread (members (snapshot name (pantry st))) updates) with
    | Fulfilled _ =>
        updated =
          (λ i, if bool_decide (PantryItem.name i = name)
                then mapPantryOut saved else i) <$> pantry st
    | Rejected _ => updated = pantry st
    end
  ∧ length updated = length (pantry st).
Proof.
  intros Hok Hname. cbv zeta.
  rewrite addToPantry_run, updatePantryItem_run, Hok. cbv zeta. simpl.
  split; [reflexivity |]. split.
  - unfold named_like at 1. rewrite filter_cons_True by exact Hname.
    f_equal. apply named_like_others.
  - destruct (update_payload _ _); simpl.
    + split; [reflexivity | apply length_fmap].
    + split; reflexivity.
Qed.

End PantryFacts.

(** An update of the quantity alone sends the date of the snapshot,
    converted; an update of the date alone sends the quantity of the
    snapshot. *)
Example update_sends_snapshot_fields :
  calls (updatePantryItem (rt := exampleRuntime) "tomato" (onlyQuantity "5")
           (Ok (Fulfilled tomatoOut)) (withPantry [tomato] freshSession))
  = [CallUpsertPantryItem
       {| PantryItemIn.name := "tomato"; PantryItemIn.quantity := Some "5";
          PantryItemIn.expiry_date := ExpiryIso "2024-01-31T00:00:00.000Z" |}]
  ∧ calls (updatePantryItem (rt := exampleRuntime) "tomato"
             (onlyExpiryDate "2024-02-29")
             (Ok (Fulfilled tomatoOut)) (withPantry [tomato] freshSession))
    = [CallUpsertPantryItem
         {| PantryItemIn.name := "tomato"; PantryItemIn.quantity := Some "2";
            PantryItemIn.expiry_date := ExpiryIso "2024-02-29T00:00:00.000Z" |}].
Proof. split; reflexivity. Qed.

Lemma upsert_local_effect_witness :
  let st := withPantry [tomato] freshSession in
  let net := Ok (Fulfilled tomatoOut) in
  let added := pantry (state (addToPantry (rt := exampleRuntime) "Tomato" net st)) in
  let updated :=
    pantry (state (updatePantryItem (rt := exampleRuntime) "Tomato"
                     (onlyQuantity "5") net st)) in
  added = [mapPantryOut tomatoOut]
  ∧ named_like (rt := exampleRuntime) "Tomato" added = [mapPantryOut tomatoOut]
  ∧ updated = [tomato]
  ∧ length updated = 1.
Proof.
  exact (upsert_local_effect (rt := exampleRuntime) "Tomato" (onlyQuantity "5")
           (Ok (Fulfilled tomatoOut)) (withPantry [tomato] freshSession) tomatoOut
           eq_refl eq_refl).
Defined.

(** C5, as the claim reads, fails on the update path: the pantry holds
    ["tomato"], the update of ["Tomato"] is confirmed by the server, and the
    pantry is what it was: the entry that matches up to case is not removed
    and the confirmed item is not put at the front. *)
Lemma update_keeps_entry_of_other_case :
  let st := withPantry [tomato] freshSession in
  let r := updatePantryItem (rt := exampleRuntime) "Tomato" (onlyQuantity "5")
             (Ok (Fulfilled tomatoOut)) st in
  settled r = Fulfilled tt
  ∧ pantry (state r) = [tomato]
  ∧ pantry (state r) ≠ [mapPantryOut tomatoOut].
Proof.
  split; [reflexivity |]. split; [reflexivity |]. discriminate.
Qed.

(** ** More on [request] *)

(** Whatever the network does, a rejection of [request] carries an instance
    of [Error]: a caller may read [message] from what it catches. *)
Theorem request_rejection_is_Error {T} (net : Fetch T) (e : Thrown) :
  request net = Rejected e → ∃ err, e = ErrorInstance err.
Proof.
  unfold request.
  destruct (request_try net) as [v | [err | other]]; simpl; [discriminate | |].
  - intros [= <-]. exists err. reflexivity.
  - intros [= <-]. exists (new_Error "Network error"). reflexivity.
Qed.

Lemma request_rejection_is_Error_witness :
  ∃ err, ErrorInstance (new_Error "Network error") = ErrorInstance err.
Proof.
  apply (request_rejection_is_Error
           (NoResponse (NonError "offline") : Fetch OkResponse.t)).
  reflexivity.
Defined.

(** A response that is not ok and whose body parses is turned into an
    [Error] whose message is never empty: it is the [detail] of the body
    when that is a non-empty text and ["Request failed"] otherwise, also
    for the empty [detail]. *)
Theorem request_not_ok_message {T} (detail : option string) :
  ∃ msg,
    request (NotOk (Fulfilled detail) : Fetch T)
      = Rejected (ErrorInstance (new_Error msg))
    ∧ msg ≠ ""
    ∧ (detail = Some msg ∨
       (msg = "Request failed" ∧ (detail = None ∨ detail = Some ""))).
Proof.
  destruct detail as [d |].
  - destruct (decide (d = "")) as [-> | Hd].
    + exists "Request failed". split; [reflexivity |]. split; [discriminate |].
      right. split; [reflexivity | right; reflexivity].
    + exists d. split.
      * unfold request, request_try, or_default. simpl.
        rewrite bool_decide_eq_false_2 by exact Hd. reflexivity.
      * split; [exact Hd | left; reflexivity].
  - exists "Request failed". split; [reflexivity |]. split; [discriminate |].
    right. split; [reflexivity | left; reflexivity].
Qed.

(** A response whose body fails to parse is treated like a fetch that
    failed with the same thrown value, be the response ok or not: an
    [Error] of the parser is rethrown as it is, and anything else becomes
    ["Network error"] although a response was received.  Neither the
    [detail] nor ["Request failed"] is reported. *)
Theorem request_unparsed_body_as_no_response {T} (e : Thrown) :
  request (NotOk (Rejected e) : Fetch T) = request (NoResponse e)
  ∧ request (Ok (Rejected e) : Fetch T) = request (NoResponse e)
  ∧ request (NoResponse e : Fetch T) =
      Rejected (match e with
                | ErrorInstance err => ErrorInstance err
                | NonError _ => ErrorInstance (new_Error "Network error")
                end).
Proof. destruct e; repeat split; reflexivity. Qed.

(** ** The request configuration *)

Lemma mergedHeaders_no_own stored m :
  mergedHeaders stored (options m) =
  match stored with
  | Some tok =>
      if truthy stored
      then <[ "Authorization" := "Bearer " +:+ tok ]>
             {[ "Content-Type" := "application/json" ]}
      else {[ "Content-Type" := "application/json" ]}
  | None => {[ "Content-Type" := "application/json" ]}
  end.
Proof.
  unfold mergedHeaders.
  assert (Hnone : RequestInit.headers (options m) = None) by (destruct m; reflexivity).
  rewrite Hnone. simpl. apply (left_id_L ∅ (∪)).
Qed.

(** Every method of the client sends the JSON content type and keeps its
    own HTTP method and body; it sends the [Authorization] header exactly
    when [localStorage] holds a non-empty token, and then with the value
    ["Bearer "] followed by the token.  This holds for the methods that
    need no session ([register], [login], [healthCheck]) as well. *)
Theorem client_methods_attach_token (stored : option string) (m : ClientMethod) :
  ∃ sent,
    RequestInit.headers (requestConfig stored (options m)) = Some sent
    ∧ sent !! "Content-Type" = Some "application/json"
    ∧ sent !! "Authorization" =
        match stored with
        | Some tok => if bool_decide (tok = "") then None else Some ("Bearer " +:+ tok)
        | None => None
        end
    ∧ RequestInit.method (requestConfig stored (options m))
        = RequestInit.method (options m)
    ∧ RequestInit.body (requestConfig stored (options m))
        = RequestInit.body (options m).
Proof.
  exists (mergedHeaders stored (options m)).
  split; [destruct m; reflexivity |].
  rewrite mergedHeaders_no_own.
  destruct stored as [tok |]; simpl.
  - destruct (bool_decide (tok = "")); simpl.
    + repeat split; reflexivity.
    + repeat split; reflexivity.
  - repeat split; reflexivity.
Qed.

(** ** More on saving and unsaving *)

Lemma filter_keeps_all {A} (P : A → Prop) `{∀ x, Decision (P x)} (l : list A) :
  (∀ x, x ∈ l → P x) → filter P l = l.
Proof.
  induction l as [| x l IH]; intros Hall; [reflexivity |].
  rewrite filter_cons_True by (apply Hall; left).
  f_equal. apply IH. intros y Hy. apply Hall. right. exact Hy.
Qed.

(** A confirmed save followed by a confirmed unsave of the same recipe gives
    back the state before the save, when the recipe was not saved before:
    its id is not in the saved-id set and no entry of the list bears it. *)
Theorem save_then_unsave_restores recipe clock netSave netUnsave st ok ok' :
  request netSave = Fulfilled ok →
  request netUnsave = Fulfilled ok' →
  recipe_id_of recipe ∉ savedRecipeIds st →
  (∀ r, r ∈ savedRecipes st → SavedRecipe.recipe_id r ≠ recipe_id_of recipe) →
  state (handleUnsaveRecipe (recipe_id_of recipe) netUnsave
           (state (handleSaveRecipe recipe clock netSave st))) = st.
Proof.
  intros Hsave Hunsave Hfresh Hnone.
  rewrite handleSaveRecipe_run, Hsave. simpl.
  rewrite handleUnsaveRecipe_run, Hunsave. simpl.
  rewrite filter_cons_False by (simpl; intros Hne; exact (Hne eq_refl)).
  rewrite filter_keeps_all by exact Hnone.
  replace ((savedRecipeIds st ∪ {[recipe_id_of recipe]}) ∖ {[recipe_id_of recipe]})
    with (savedRecipeIds st).
  - destruct st; reflexivity.
  - apply set_eq. intros i.
    rewrite elem_of_difference, elem_of_union, elem_of_singleton. split.
    + intros Hi. split; [left; exact Hi |]. intros ->. exact (Hfresh Hi).
    + intros [[Hi | Hi] Hne]; [exact Hi | contradiction].
Qed.

Lemma save_then_unsave_restores_witness :
  state (handleUnsaveRecipe "r1" confirmed
           (state (handleSaveRecipe (Catalog soup) noon confirmed freshSession)))
  = freshSession.
Proof.
  apply (save_then_unsave_restores (Catalog soup) noon confirmed confirmed
           freshSession (OkResponse.mk true) (OkResponse.mk true)).
  - reflexivity.
  - reflexivity.
  - apply not_elem_of_empty.
  - intros r Hr. inversion Hr.
Defined.

(** Saving is not guarded by the saved-id set: two confirmed saves of one
    recipe add two entries that bear its id, while the saved-id set is the
    one a single save leaves; one confirmed unsave then removes both. *)
Theorem save_twice_duplicates recipe clock1 clock2 net1 net2 netUnsave st ok1 ok2 ok3 :
  request net1 = Fulfilled ok1 →
  request net2 = Fulfilled ok2 →
  request netUnsave = Fulfilled ok3 →
  let id := recipe_id_of recipe in
  let once := state (handleSaveRecipe recipe clock1 net1 st) in
  let twice := state (handleSaveRecipe recipe clock2 net2 once) in
  let after := state (handleUnsaveRecipe id netUnsave twice) in
  saved_count id (savedRecipes twice) = saved_count id (savedRecipes st) + 2
  ∧ savedRecipeIds twice = savedRecipeIds once
  ∧ saved_count id (savedRecipes after) = 0
  ∧ isSaved after id = false.
Proof.
  intros H1 H2 H3. cbv zeta.
  rewrite !handleSaveRecipe_run, H1. simpl. rewrite H2. simpl.
  rewrite handleUnsaveRecipe_run, H3. simpl.
  split; [| split; [| split]].
  - unfold saved_count. rewrite !filter_cons_True by reflexivity. simpl. lia.
  - apply set_eq. intros i. rewrite !elem_of_union. tauto.
  - unfold saved_count.
    rewrite !filter_cons_False by (simpl; intros Hne; exact (Hne eq_refl)).
    rewrite list_filter_filter.
    replace (filter _ (savedRecipes st)) with (@nil SavedRecipe.t); [reflexivity |].
    symmetry. apply elem_of_nil_inv. intros x.
    rewrite list_elem_of_filter. tauto.
  - unfold isSaved. simpl. apply bool_decide_eq_false.
    rewrite elem_of_difference, elem_of_singleton. intros [_ Hne]. exact (Hne eq_refl).
Qed.

Lemma save_twice_duplicates_witness :
  let once := state (handleSaveRecipe (Catalog soup) noon confirmed freshSession) in
  let twice := state (handleSaveRecipe (Catalog soup) noon confirmed once) in
  let after := state (handleUnsaveRecipe "r1" confirmed twice) in
  saved_count "r1" (savedRecipes twice) = saved_count "r1" (savedRecipes freshSession) + 2
  ∧ savedRecipeIds twice = savedRecipeIds once
  ∧ saved_count "r1" (savedRecipes after) = 0
  ∧ isSaved after "r1" = false.
Proof.
  exact (save_twice_duplicates (Catalog soup) noon noon confirmed confirmed confirmed
           freshSession (OkResponse.mk true) (OkResponse.mk true) (OkResponse.mk true)
           eq_refl eq_refl eq_refl).
Defined.

(** The temporary [id] of a synthesized entry depends on the clock alone:
    two entries get the same [id] exactly when they were made in the same
    millisecond, whatever the recipes are. *)
Theorem temporary_id_by_millisecond recipe1 recipe2 clock1 clock2 :
  SavedRecipe.id (newSavedRecipe recipe1 clock1)
    = SavedRecipe.id (newSavedRecipe recipe2 clock2)
  ↔ now clock1 = now clock2.
Proof.
  simpl. split.
  - intros Heq. injection Heq as Heq. exact (pretty_N_inj _ _ Heq).
  - intros ->. reflexivity.
Qed.

(** ** More on the pantry *)

Lemma substring_0_length (m : nat) (s : string) :
  (String.length (String.substring 0 m s) ≤ m)%nat.
Proof.
  revert s. induction m as [| m IH]; intros [| c s]; simpl; try lia.
  specialize (IH s). lia.
Qed.

Lemma substring_0_prefix (m : nat) (s : string) :
  String.prefix (String.substring 0 m s) s = true.
Proof.
  revert s. induction m as [| m IH]; intros [| c s]; simpl; try reflexivity.
  destruct (Ascii.ascii_dec c c) as [_ | Hne]; [apply IH | contradiction].
Qed.

(** What [mapPantryOut] shows of an item of the server: the name and the
    time of adding as they are, the quantity with the empty text in place
    of a missing one, and of the expiry date its first ten characters at
    most, a non-empty prefix; a missing or empty date is shown as none. *)
Theorem mapPantryOut_shows (p : PantryItemOut.t) :
  PantryItem.name (mapPantryOut p) = PantryItemOut.name p
  ∧ PantryItem.addedAt (mapPantryOut p) = PantryItemOut.added_at p
  ∧ PantryItem.quantity (mapPantryOut p) = default "" (PantryItemOut.quantity p)
  ∧ match PantryItem.expiryDate (mapPantryOut p) with
    | Some shown =>
        shown ≠ "" ∧ (String.length shown ≤ 10)%nat
        ∧ ∃ full, PantryItemOut.expiry_date p = Some full
                  ∧ String.prefix shown full = true
    | None =>
        PantryItemOut.expiry_date p = None ∨ PantryItemOut.expiry_date p = Some ""
    end.
Proof.
  destruct p as [n q d a]. simpl.
  split; [reflexivity |]. split; [reflexivity |]. split.
  - destruct q as [q |]; simpl; [| reflexivity].
    destruct (decide (q = "")) as [-> | Hq]; [reflexivity |].
    rewrite bool_decide_eq_false_2 by exact Hq. reflexivity.
  - destruct d as [d |]; simpl; [| left; reflexivity].
    destruct (decide (d = "")) as [-> | Hd]; [right; reflexivity |].
    rewrite bool_decide_eq_false_2 by exact Hd. simpl.
    split; [| split].
    + destruct d as [| c d]; [contradiction | discriminate].
    + apply substring_0_length.
    + exists d. split; [reflexivity | apply substring_0_prefix].
Qed.

Lemma fetchPantry_run net st :
  fetchPantry net st =
  match request net with
  | Fulfilled res =>
      mkRun [CallGetPantry] (Fulfilled tt)
        (withPantry (mapPantryOut <$> PantryResponse.items res) st)
  | Rejected _ => mkRun [CallGetPantry] (Fulfilled tt) st
  end.
Proof.
  unfold fetchPantry. unfold_async. destruct (request net); reflexivity.
Qed.

Lemma removePantryItem_run name net st :
  removePantryItem name net st =
  match request net with
  | Fulfilled _ =>
      mkRun [CallDeletePantryItem name] (Fulfilled tt)
        (withPantry (filter (λ i, PantryItem.name i ≠ name) (pantry st)) st)
  | Rejected e => mkRun [CallDeletePantryItem name] (Rejected e) st
  end.
Proof.
  unfold removePantryItem. unfold_async. destruct (request net); reflexivity.
Qed.

Lemma withPantry_same st : withPantry (pantry st) st = st.
Proof. destruct st; reflexivity. Qed.


(** The session effect never rejects, whatever the network does.  In a
    logged-in session it asks for the saved recipes and then for the pantry,
    the second also when the first failed; a fetch that fails leaves its
    cells as they were, one that succeeds replaces them.  In a logged-out
    session it asks for nothing and empties both lists. *)
Theorem sessionEffect_calls netSaved netPantry st :
  let r := sessionEffect netSaved netPantry st in
  settled r = Fulfilled tt
  ∧ calls r = (if isLoggedIn st then [CallGetSavedRecipes; CallGetPantry] else [])
  ∧ pantry (state r) =
      (if isLoggedIn st then
         match request netPantry with
         | Fulfilled res => mapPantryOut <$> PantryResponse.items res
         | Rejected _ => pantry st
         end
       else [])
  ∧ savedRecipes (state r) =
      (if isLoggedIn st then
         match request netSaved with
         | Fulfilled response => SavedRecipesResponse.items response
         | Rejected _ => savedRecipes st
         end
       else []).
Proof.
  cbv zeta. unfold sessionEffect, bind, getState. simpl.
  destruct (isLoggedIn st) eqn:Hin; simpl.
  - rewrite fetchSavedRecipes_run.
    destruct (request netSaved); simpl; rewrite fetchPantry_run;
      destruct (request netPantry); simpl; repeat split; reflexivity.
  - repeat split; reflexivity.
Qed.

(** [removePantryItem] asks the server once.  When that fails, it rejects
    with the error and the state is untouched.  When it succeeds, exactly
    the entries with another name stay, in their order; the comparison is
    exact, so an entry that differs from the name in case only stays, and
    when no entry bears the name the pantry is as it was. *)
Theorem removePantryItem_effect name net st :
  let r := removePantryItem name net st in
  calls r = [CallDeletePantryItem name]
  ∧ match request net with
    | Rejected e => settled r = Rejected e ∧ state r = st
    | Fulfilled _ =>
        settled r = Fulfilled tt
        ∧ (∀ i, i ∈ pantry (state r) ↔ i ∈ pantry st ∧ PantryItem.name i ≠ name)
        ∧ ((∀ i, i ∈ pantry st → PantryItem.name i ≠ name) → state r = st)
    end.
Proof.
  cbv zeta. rewrite removePantryItem_run.
  destruct (request net) as [v | e]; simpl.
  - split; [reflexivity |]. split; [reflexivity |]. split.
    + intros i. rewrite list_elem_of_filter. tauto.
    + intros Hnone. rewrite filter_keeps_all by exact Hnone. apply withPantry_same.
  - repeat split; reflexivity.
Qed.

Section MorePantry.
Context `{rt : JsRuntime}.

(** When the server refuses an upsert, both [addToPantry] and
    [updatePantryItem] reject with the error of the request and leave the
    state as it was. *)
Theorem upsert_failure_leaves_state name updates net st e :
  request net = Rejected e →
  (settled (addToPantry name net st) = Rejected e
   ∧ state (addToPantry name net st) = st)
  ∧ (∃ e', settled (updatePantryItem name updates net st) = Rejected e')
  ∧ state (updatePantryItem name updates net st) = st.
Proof.
  intros Hfail. rewrite addToPantry_run, updatePantryItem_run, Hfail. cbv zeta.
  split; [split; reflexivity |].
  destruct (update_payload _ _) as [payload | e0]; simpl.
  - split; [exists e |]; reflexivity.
  - split; [exists e0 |]; reflexivity.
Qed.

(** An expiry date that cannot be converted stops [updatePantryItem] before
    anything is sent: it rejects with the error of the conversion, makes no
    call and leaves the state as it was. *)
Theorem update_invalid_date_sends_nothing name updates net st e :
  expiry_of (overlaid_expiryDate (snapshot name (pantry st)) updates) = Rejected e →
  updatePantryItem name updates net st = mkRun [] (Rejected e) st.
Proof.
  intros Hdate. rewrite updatePantryItem_run, update_payload_overlaid, Hdate.
  reflexivity.
Qed.


Lemma filter_filter_same {A} (P : A → Prop) `{∀ x, Decision (P x)} (l : list A) :
  filter P (filter P l) = filter P l.
Proof.
  apply filter_keeps_all. intros x Hx. apply list_elem_of_filter in Hx. tauto.
Qed.

(** Adding is idempotent: with the same answer of the server, an item that
    bears the name up to case, a second [addToPantry] of the name leaves
    the state of the first. *)
Theorem addToPantry_idempotent name net st saved :
  request net = Fulfilled saved →
  toLowerCase (PantryItemOut.name saved) = toLowerCase name →
  state (addToPantry name net (state (addToPantry name net st)))
  = state (addToPantry name net st).
Proof.
  intros Hok Hname. rewrite !addToPantry_run, Hok. cbv zeta. simpl.
  unfold withPantry. simpl. f_equal. f_equal.
  rewrite filter_cons_False by (intros Hne; exact (Hne Hname)).
  apply filter_filter_same.
Qed.

Lemma lowered_filter_NoDup (P : PantryItem.t → Prop) `{∀ x, Decision (P x)}
    (items : list PantryItem.t) :
  NoDup (lowered items) → NoDup (lowered (filter P items)).
Proof.
  intros Hnd. eapply sublist_NoDup; [exact Hnd |].
  unfold lowered. apply fmap_sublist, sublist_filter.
Qed.

Lemma lowered_replaced name (saved : PantryItem.t) (items : list PantryItem.t) :
  toLowerCase (PantryItem.name saved) = toLowerCase name →
  lowered ((λ i, if bool_decide (PantryItem.name i = name) then saved else i) <$> items)
  = lowered items.
Proof.
  intros Hname. unfold lowered. rewrite <- list_fmap_compose.
  apply list_fmap_ext. intros k i _. simpl.
  destruct (bool_decide (PantryItem.name i = name)) eqn:Hi; [| reflexivity].
  apply bool_decide_eq_true in Hi. rewrite Hname, Hi. reflexivity.
Qed.

(** The pantry handlers keep the names unique up to case.  If no two
    entries share a name up to case, then none do after a confirmed
    [addToPantry] or [updatePantryItem] whose confirmed item bears the
    name up to case, nor after a [removePantryItem], confirmed or not. *)
Theorem pantry_names_stay_unique name updates net st saved other netRemove :
  unique_names (pantry st) →
  request net = Fulfilled saved →
  toLowerCase (PantryItemOut.name saved) = toLowerCase name →
  unique_names (pantry (state (addToPantry name net st)))
  ∧ unique_names (pantry (state (updatePantryItem name updates net st)))
  ∧ unique_names (pantry (state (removePantryItem other netRemove st))).
Proof.
  intros Huniq Hok Hname. unfold unique_names in *.
  rewrite addToPantry_run, updatePantryItem_run, removePantryItem_run, Hok.
  cbv zeta. simpl. split; [| split].
  - change (NoDup (toLowerCase (PantryItem.name (mapPantryOut saved)) ::
              lowered (filter (λ i, toLowerCase (PantryItem.name i) ≠ toLowerCase name)
                         (pantry st)))).
    apply NoDup_cons. split; [| apply lowered_filter_NoDup, Huniq].
    unfold lowered. rewrite list_elem_of_fmap. intros (i & Hi & Hin).
    apply list_elem_of_filter in Hin as [Hne _]. apply Hne.
    rewrite <- Hi. simpl. exact Hname.
  - destruct (update_payload _ _); simpl; [| exact Huniq].
    rewrite lowered_replaced; [exact Huniq | exact Hname].
  - destruct (request netRemove); simpl; [| exact Huniq].
    apply lowered_filter_NoDup, Huniq.
Qed.

(** After a confirmed [addToPantry], the set of lower-cased names handed to
    the ingredients view is the former one with the lower-cased name put
    in: the name counts as present, whatever the case it was added in. *)
Theorem addToPantry_pantryNames name net st saved :
  request net = Fulfilled saved →
  toLowerCase (PantryItemOut.name saved) = toLowerCase name →
  pantryNames (state (addToPantry name net st))
  = pantryNames st ∪ {[ toLowerCase name ]}.
Proof.
  intros Hok Hname. rewrite addToPantry_run, Hok. cbv zeta. simpl.
  unfold pantryNames, lowered. simpl. apply set_eq. intros x.
  rewrite !elem_of_union, !elem_of_singleton, !elem_of_list_to_set,
    !list_elem_of_fmap.
  setoid_rewrite list_elem_of_filter. rewrite Hname. split.
  - intros [-> | (i & -> & _ & Hin)]; [right; reflexivity |].
    left. exists i. split; [reflexivity | exact Hin].
  - intros [(i & -> & Hin) | ->]; [| left; reflexivity].
    destruct (decide (toLowerCase (PantryItem.name i) = toLowerCase name)) as [Heq | Hne].
    + left. exact Heq.
    + right. exists i. split; [reflexivity |]. split; [exact Hne | exact Hin].
Qed.

End MorePantry.

Lemma upsert_failure_leaves_state_witness :
  let st := withPantry [tomato] freshSession in
  let net : Fetch PantryItemOut.t := NotOk (Fulfilled (Some "Pantry is full")) in
  (settled (addToPantry (rt := exampleRuntime) "tomato" net st)
     = Rejected (ErrorInstance (new_Error "Pantry is full"))
   ∧ state (addToPantry (rt := exampleRuntime) "tomato" net st) = st)
  ∧ (∃ e', settled (updatePantryItem (rt := exampleRuntime) "tomato"
                      (onlyQuantity "3") net st) = Rejected e')
  ∧ state (updatePantryItem (rt := exampleRuntime) "tomato" (onlyQuantity "3") net st)
    = st.
Proof.
  intros st net.
  apply (upsert_failure_leaves_state (rt := exampleRuntime)). reflexivity.
Defined.

Lemma update_invalid_date_sends_nothing_witness :
  updatePantryItem (rt := exampleRuntime) "tomato" (onlyExpiryDate "not a date")
    (Ok (Fulfilled tomatoOut)) (withPantry [tomato] freshSession)
  = mkRun [] (Rejected (ErrorInstance (mkError "RangeError" "Invalid time value")))
      (withPantry [tomato] freshSession).
Proof.
  apply (update_invalid_date_sends_nothing (rt := exampleRuntime)). reflexivity.
Defined.


Lemma addToPantry_idempotent_witness :
  let st := withPantry [tomato] freshSession in
  let net := Ok (Fulfilled tomatoOut) in
  state (addToPantry (rt := exampleRuntime) "TOMATO" net
           (state (addToPantry (rt := exampleRuntime) "TOMATO" net st)))
  = state (addToPantry (rt := exampleRuntime) "TOMATO" net st).
Proof.
  intros st net.
  apply (addToPantry_idempotent (rt := exampleRuntime) "TOMATO" net st tomatoOut);
    reflexivity.
Defined.

Lemma pantry_names_stay_unique_witness :
  let st := withPantry [tomato] freshSession in
  let net := Ok (Fulfilled tomatoOut) in
  unique_names (rt := exampleRuntime)
    (pantry (state (addToPantry (rt := exampleRuntime) "TOMATO" net st)))
  ∧ unique_names (rt := exampleRuntime)
      (pantry (state (updatePantryItem (rt := exampleRuntime) "TOMATO"
                        (onlyQuantity "5") net st)))
  ∧ unique_names (rt := exampleRuntime)
      (pantry (state (removePantryItem "tomato" confirmed st))).
Proof.
  intros st net.
  apply (pantry_names_stay_unique (rt := exampleRuntime) "TOMATO" (onlyQuantity "5")
           net st tomatoOut "tomato" confirmed).
  - apply NoDup_singleton.
  - reflexivity.
  - reflexivity.
Defined.

Lemma addToPantry_pantryNames_witness :
  let st := withPantry [tomato] freshSession in
  pantryNames (rt := exampleRuntime)
    (state (addToPantry (rt := exampleRuntime) "TOMATO" (Ok (Fulfilled tomatoOut)) st))
  = pantryNames (rt := exampleRuntime) st ∪ {[ "tomato" ]}.
Proof.
  intros st.
  apply (addToPantry_pantryNames (rt := exampleRuntime) "TOMATO"
           (Ok (Fulfilled tomatoOut)) st tomatoOut); reflexivity.
Defined.

(** ** More on the session *)

Lemma checkAuth_run net st :
  checkAuth net st =
  if truthy (token st) then
    match request net with
    | Fulfilled _ =>
        mkRun [CallGetProfile] (Fulfilled tt)
          (mkApp Tab.profile true false (savedRecipes st) (savedRecipeIds st)
             (searchIngredients st) (pantry st) (token st))
    | Rejected _ =>
        mkRun [CallGetProfile] (Fulfilled tt)
          (mkApp (activeTab st) (isLoggedIn st) false (savedRecipes st)
             (savedRecipeIds st) (searchIngredients st) (pantry st) None)
    end
  else
    mkRun [] (Fulfilled tt)
      (mkApp (activeTab st) (isLoggedIn st) false (savedRecipes st)
         (savedRecipeIds st) (searchIngredients st) (pantry st) (token st)).
Proof.
  unfold checkAuth. unfold_async.
  destruct (truthy (token st)); simpl; [| reflexivity].
  destruct (request net); reflexivity.
Qed.

Lemma sessionEffect_run netSaved netPantry st :
  sessionEffect netSaved netPantry st =
  if isLoggedIn st then
    mkRun [CallGetSavedRecipes; CallGetPantry] (Fulfilled tt)
      (state (fetchPantry netPantry (state (fetchSavedRecipes netSaved st))))
  else
    mkRun [] (Fulfilled tt)
      (mkApp (activeTab st) (isLoggedIn st) (isLoading st) [] ∅
         (searchIngredients st) [] (token st)).
Proof.
  destruct st as [tab logged loading saved ids search p tok].
  unfold sessionEffect, bind, getState. simpl.
  destruct logged; simpl; [| reflexivity].
  rewrite fetchSavedRecipes_run.
  destruct (request netSaved); simpl; rewrite fetchPantry_run;
    destruct (request netPantry); reflexivity.
Qed.

Lemma fetches_state netSaved netPantry st :
  state (fetchPantry netPantry (state (fetchSavedRecipes netSaved st))) =
  mkApp (activeTab st) (isLoggedIn st) (isLoading st)
    match request netSaved with
    | Fulfilled response => SavedRecipesResponse.items response
    | Rejected _ => savedRecipes st
    end
    match request netSaved with
    | Fulfilled response =>
        list_to_set (SavedRecipe.recipe_id <$> SavedRecipesResponse.items response)
    | Rejected _ => savedRecipeIds st
    end
    (searchIngredients st)
    match request netPantry with
    | Fulfilled res => mapPantryOut <$> PantryResponse.items res
    | Rejected _ => pantry st
    end
    (token st).
Proof.
  rewrite fetchSavedRecipes_run.
  destruct (request netSaved); simpl; rewrite fetchPantry_run;
    destruct (request netPantry); destruct st; reflexivity.
Qed.

Lemma startup_run netProfile netSaved netPantry st :
  rendered netSaved netPantry (checkAuth netProfile) st =
  if truthy (token st) then
    match request netProfile with
    | Fulfilled _ =>
        let st1 :=
          mkApp Tab.profile true false (savedRecipes st) (savedRecipeIds st)
            (searchIngredients st) (pantry st) (token st) in
        if isLoggedIn st then mkRun [CallGetProfile] (Fulfilled tt) st1
        else
          mkRun [CallGetProfile; CallGetSavedRecipes; CallGetPantry] (Fulfilled tt)
            (state (fetchPantry netPantry (state (fetchSavedRecipes netSaved st1))))
    | Rejected _ =>
        mkRun [CallGetProfile] (Fulfilled tt)
          (mkApp (activeTab st) (isLoggedIn st) false (savedRecipes st)
             (savedRecipeIds st) (searchIngredients st) (pantry st) None)
    end
  else
    mkRun [] (Fulfilled tt)
      (mkApp (activeTab st) (isLoggedIn st) false (savedRecipes st)
         (savedRecipeIds st) (searchIngredients st) (pantry st) (token st)).
Proof.
  unfold rendered. rewrite checkAuth_run.
  destruct (truthy (token st)).
  - destruct (request netProfile); cbn [state calls settled isLoggedIn].
    + destruct (isLoggedIn st); [reflexivity |].
      rewrite bool_decide_eq_false_2 by discriminate.
      rewrite sessionEffect_run. reflexivity.
    + rewrite bool_decide_eq_true_2 by reflexivity. reflexivity.
  - cbn [state calls settled isLoggedIn].
    rewrite bool_decide_eq_true_2 by reflexivity. reflexivity.
Qed.

Lemma login_run tok netSaved netPantry st :
  rendered netSaved netPantry (handleLogin tok) st =
  let st1 :=
    mkApp Tab.profile true (isLoading st) (savedRecipes st) (savedRecipeIds st)
      (searchIngredients st) (pantry st) (token st) in
  if isLoggedIn st then mkRun [] (Fulfilled tt) st1
  else
    mkRun [CallGetSavedRecipes; CallGetPantry] (Fulfilled tt)
      (state (fetchPantry netPantry (state (fetchSavedRecipes netSaved st1)))).
Proof.
  unfold rendered.
  assert (Hlogin : handleLogin tok st =
    mkRun [] (Fulfilled tt)
      (mkApp Tab.profile true (isLoading st) (savedRecipes st) (savedRecipeIds st)
         (searchIngredients st) (pantry st) (token st))) by reflexivity.
  rewrite Hlogin. cbn [state calls settled isLoggedIn]. cbv zeta.
  destruct (isLoggedIn st); [reflexivity |].
  rewrite bool_decide_eq_false_2 by discriminate.
  rewrite sessionEffect_run. reflexivity.
Qed.

(** [checkAuth] never rejects and always ends the loading screen.  Without
    a token, or with an empty one, it asks the server nothing and changes
    nothing else.  With a token it asks for the profile once: on success the
    session is logged in on the profile tab and the token is kept; on any
    failure the token is removed and the rest is as it was. *)
Theorem checkAuth_outcomes net st :
  let r := checkAuth net st in
  settled r = Fulfilled tt
  ∧ isLoading (state r) = false
  ∧ savedRecipes (state r) = savedRecipes st
  ∧ pantry (state r) = pantry st
  ∧ if truthy (token st) then
      calls r = [CallGetProfile]
      ∧ match request net with
        | Fulfilled _ =>
            isLoggedIn (state r) = true ∧ activeTab (state r) = Tab.profile
            ∧ token (state r) = token st
        | Rejected _ =>
            isLoggedIn (state r) = isLoggedIn st ∧ activeTab (state r) = activeTab st
            ∧ token (state r) = None
        end
    else
      calls r = [] ∧ isLoggedIn (state r) = isLoggedIn st
      ∧ activeTab (state r) = activeTab st ∧ token (state r) = token st.
Proof.
  cbv zeta. unfold checkAuth. unfold_async.
  destruct (truthy (token st)); simpl; [| repeat split; reflexivity].
  destruct (request net); simpl; repeat split; reflexivity.
Qed.

(** What the profile card does with its request for the profile, in a
    logged-in session.  It never rejects and ends its loading state.  On
    success it shows the profile.  On failure it shows the message of the
    error, never the fallback text, since [request] rejects with [Error]
    instances only; and when that message contains ["Invalid
    authentication"] the session is logged out and the collections are
    emptied, while the token stays in [localStorage], unlike after the
    logout button. *)
Theorem fetchProfile_outcomes net card st :
  isLoggedIn st = true →
  let r := rendered idle idle (fetchProfile net card) st in
  calls r = [CallGetProfile]
  ∧ match request net with
    | Fulfilled profileData =>
        settled r = Fulfilled (Card.mk (Some profileData) false (Card.error card)
                                 (Card.expandedRecipe card))
        ∧ state r = st
    | Rejected e =>
        ∃ err, e = ErrorInstance err
          ∧ settled r = Fulfilled (Card.mk (Card.profile card) false (message err)
                                     (Card.expandedRecipe card))
          ∧ state r =
              if includes "Invalid authentication" (message err)
              then mkApp Tab.auth false (isLoading st) [] ∅ (searchIngredients st) []
                     (token st)
              else st
    end.
Proof.
  intros Hin. cbv zeta.
  destruct st as [tab logged loading saved ids search p tok]. simpl in Hin. subst logged.
  unfold rendered, fetchProfile, try_catch, bind, await, ret, api.getProfile.
  cbn -[includes request].
  destruct (request net) as [profileData | e] eqn:Hnet; cbn -[includes].
  - split; [reflexivity | split; reflexivity].
  - pose proof (request_rejects_with_Error _ _ Hnet) as Herr.
    destruct e as [err | other]; [| discriminate]. cbn -[includes].
    split.
    + destruct (includes "Invalid authentication" (message err)); reflexivity.
    + exists err. split; [reflexivity |].
      destruct (includes "Invalid authentication" (message err));
        split; reflexivity.
Qed.

Lemma fetchProfile_outcomes_witness :
  let net : Fetch ProfileResponse.t :=
    NotOk (Fulfilled (Some "Invalid authentication credentials")) in
  let st := state (handleSaveRecipe (Catalog soup) noon confirmed freshSession) in
  let r := rendered idle idle (fetchProfile net initialCard) st in
  calls r = [CallGetProfile]
  ∧ ∃ err, ErrorInstance (new_Error "Invalid authentication credentials")
             = ErrorInstance err
      ∧ settled r = Fulfilled (Card.mk None false (message err) None)
      ∧ state r =
          if includes "Invalid authentication" (message err)
          then mkApp Tab.auth false false [] ∅ "" [] (Some "jwt")
          else st.
Proof.
  intros net st.
  apply (fetchProfile_outcomes net initialCard st). reflexivity.
Defined.

Section MoreSession.
Context `{rt : JsRuntime}.

Lemma step_tab_allowed st ev :
  tab_allowed st = true → tab_allowed (step st ev) = true.
Proof.
  unfold step, dispatch, tab_allowed.
  destruct ev as [netProfile netSaved netPantry | tk netSaved netPantry | | tab'
                 | recipe clock net | recipeId net | name net | name updates net
                 | name net].
  - rewrite startup_run.
    destruct (truthy (token st)); [destruct (request netProfile) |]; cbv zeta;
      try (intros H; exact H).
    destruct (isLoggedIn st); [intros _; reflexivity |].
    rewrite fetches_state. intros _. reflexivity.
  - rewrite login_run. cbv zeta.
    destruct (isLoggedIn st); [intros _; reflexivity |].
    rewrite fetches_state. intros _. reflexivity.
  - rewrite logout_run. destruct (isLoggedIn st); simpl; intros; reflexivity.
  - destruct st as [tab logged loading saved ids search p tok].
    unfold handleTabChange. unfold_async.
    destruct logged, tab'; simpl; intros H; first [exact H | reflexivity].
  - rewrite handleSaveRecipe_run. destruct (request net); simpl; intros H; exact H.
  - rewrite handleUnsaveRecipe_run. destruct (request net); simpl; intros H; exact H.
  - rewrite addToPantry_run. cbv zeta. destruct (request net); simpl; intros H; exact H.
  - rewrite updatePantryItem_run. destruct (update_payload _ _); simpl;
      [destruct (request net); simpl |]; intros H; exact H.
  - rewrite removePantryItem_run. destruct (request net); simpl; intros H; exact H.
Qed.

(** The tabs are gated in every state the application reaches from its
    first render: a logged-out session shows the login, recipes or about
    tab only, and a logged-in session never shows the login tab. *)
Theorem tabs_are_gated stored evs :
  let st := run evs (initialState stored) in
  tab_allowed st = true
  ∧ if isLoggedIn st then activeTab st ≠ Tab.auth
    else activeTab st = Tab.auth ∨ activeTab st = Tab.recipes
         ∨ activeTab st = Tab.about.
Proof.
  cbv zeta.
  assert (Hgen : ∀ st, tab_allowed st = true → tab_allowed (run evs st) = true).
  { induction evs as [| ev evs IH]; intros st Hst; [exact Hst |].
    simpl. apply IH, step_tab_allowed, Hst. }
  specialize (Hgen (initialState stored) eq_refl).
  split; [exact Hgen |].
  unfold tab_allowed in Hgen.
  destruct (activeTab (run evs (initialState stored))),
    (isLoggedIn (run evs (initialState stored)));
    try discriminate; auto.
Qed.


End MoreSession.

(** A save of the former session that settles after the logout puts its
    entry into the emptied list; a login whose fetch of the saved recipes
    fails leaves it there. *)
Example late_save_survives_failed_fetch :
  let st := run (rt := exampleRuntime)
              [Logout; Save (Catalog soup) noon confirmed;
               Login "jwt2" (NoResponse failedToFetch) (NoResponse failedToFetch)]
              freshSession in
  isLoggedIn st = true
  ∧ savedRecipes st = [newSavedRecipe (Catalog soup) noon]
  ∧ isSaved st "r1" = true.
Proof. repeat split; vm_compute; reflexivity. Qed.

(** ** Unsaving again, and starting up *)

(** A confirmed unsave is idempotent on the local state: unsaving the same
    id again, with the server confirming again, leaves the state of the
    first unsave. *)
Theorem unsave_again_changes_nothing recipeId net st ok :
  request net = Fulfilled ok →
  state (handleUnsaveRecipe recipeId net (state (handleUnsaveRecipe recipeId net st)))
  = state (handleUnsaveRecipe recipeId net st).
Proof.
  intros Hok. rewrite !handleUnsaveRecipe_run, Hok. simpl. f_equal.
  - apply filter_keeps_all. intros x Hx. apply list_elem_of_filter in Hx. tauto.
  - apply set_eq. intros i. rewrite !elem_of_difference. tauto.
Qed.

Lemma unsave_again_changes_nothing_witness :
  let st := state (handleSaveRecipe (Catalog soup) noon confirmed freshSession) in
  state (handleUnsaveRecipe "r1" confirmed (state (handleUnsaveRecipe "r1" confirmed st)))
  = state (handleUnsaveRecipe "r1" confirmed st).
Proof.
  intros st.
  apply (unsave_again_changes_nothing "r1" confirmed st (OkResponse.mk true)).
  reflexivity.
Defined.

Section Starting.
Context `{rt : JsRuntime}.


End Starting.

(** ** Where a logout can start *)

Section Session.
Context `{rt : JsRuntime}.

(** The profile card is shown in a logged-in session only: this holds on the
    first render and every event keeps it. *)
Lemma step_profile_card st ev :
  (profile_card_shown st = true → isLoggedIn st = true) →
  profile_card_shown (step st ev) = true → isLoggedIn (step st ev) = true.
Proof.
  unfold step, dispatch, profile_card_shown.
  destruct ev as [netProfile netSaved netPantry | tk netSaved netPantry | | tab'
                 | recipe clock net | recipeId net | name net | name updates net
                 | name net].
  - rewrite startup_run.
    destruct (truthy (token st)); [destruct (request netProfile) |]; cbv zeta;
      try (intros H; exact H).
    destruct (isLoggedIn st); [intros _ _; reflexivity |].
    rewrite fetches_state. intros _ _. reflexivity.
  - rewrite login_run. cbv zeta.
    destruct (isLoggedIn st); [intros _ _; reflexivity |].
    rewrite fetches_state. intros _ _. reflexivity.
  - rewrite logout_run. destruct (isLoggedIn st); simpl; intros; discriminate.
  - destruct st as [tab logged loading saved ids search p tok].
    unfold handleTabChange. unfold_async.
    destruct logged, tab'; simpl; intros H; try exact H; intros; try reflexivity;
      discriminate.
  - rewrite handleSaveRecipe_run. destruct (request net); simpl; intros H; exact H.
  - rewrite handleUnsaveRecipe_run. destruct (request net); simpl; intros H; exact H.
  - rewrite addToPantry_run. cbv zeta. destruct (request net); simpl; intros H; exact H.
  - rewrite updatePantryItem_run. destruct (update_payload _ _); simpl;
      [destruct (request net); simpl |]; intros H; exact H.
  - unfold removePantryItem. unfold_async.
    destruct (request net); simpl; intros H; exact H.
Qed.

Lemma profile_card_needs_login stored evs :
  profile_card_shown (run evs (initialState stored)) = true →
  isLoggedIn (run evs (initialState stored)) = true.
Proof.
  assert (Hgen : ∀ st,
    (profile_card_shown st = true → isLoggedIn st = true) →
    profile_card_shown (run evs st) = true → isLoggedIn (run evs st) = true).
  { induction evs as [| ev evs IH]; intros st Hst; [exact Hst |].
    simpl. apply IH, step_profile_card, Hst. }
  apply Hgen. discriminate.
Qed.

(** The scenario of the specification: nothing saved, a confirmed save of
    ["r1"], then a confirmed unsave of it. *)
Example save_then_unsave_scenario :
  let st0 := run [Login "jwt" (Ok (Fulfilled (SavedRecipesResponse.mk [])))
                    (Ok (Fulfilled (PantryResponse.mk [])))] (initialState None) in
  let st1 := run [Save (Catalog soup) noon confirmed] st0 in
  let st2 := run [Unsave "r1" confirmed] st1 in
  (isSaved st1 "r1" = true ∧ length (savedRecipes st1) = 1)
  ∧ (isSaved st2 "r1" = false ∧ length (savedRecipes st2) = 0).
Proof. repeat split; vm_compute; reflexivity. Qed.

End Session.
